(** * Device placement, the classification accuracy helpers and mean
    imputation of the d2l notebooks, embedded in Rocq.

    Sources embedded here:
    - [use-gpu] notebook (src/unnamed/part_000): [cpu], [gpu], [num_gpus],
      [try_gpu], [try_all_gpus], [Trainer.__init__], [Trainer.prepare_batch];
    - [classification.md] (src/unnamed/part_001): [Classification.accuracy];
    - [classification.ipynb]: [Classifier.accuracy];
    - [pandas.ipynb]: [inputs.fillna(inputs.mean())].

    Python integers are [Z]; Python lists are [list]; exceptions are an
    explicit [result] type; objects whose identity matters (tensors that are
    moved between devices) live in a store indexed by references. *)

From stdpp Require Import base numbers list option gmap strings.
From Stdlib Require Import QArith Qcanon.
From Stdlib Require Floats.PrimFloat.

Local Open Scope Z_scope.

(** ** Exceptions *)

Inductive exn :=
| RuntimeError   (* framework-level failure: device or shape mismatch *)
| IndexError.    (* a dimension that does not exist or has size zero *)

Inductive result (A : Type) :=
| Ok (a : A)
| Raise (e : exn).
Arguments Ok {A} a.
Arguments Raise {A} e.

#[global] Instance result_ret : MRet result := @Ok.
#[global] Instance result_bind : MBind result := fun A B f m =>
  match m with
  | Ok a => f a
  | Raise e => Raise e
  end.
#[global] Instance result_fmap : FMap result := fun A B f m =>
  match m with
  | Ok a => Ok (f a)
  | Raise e => Raise e
  end.

(** [range(n)] of Python for an integer [n]: empty when [n <= 0]. *)
Definition range (n : Z) : list Z := seqZ 0 n.

(** Floating point numbers are exact rationals in this development; the
    sum and the count a mean is made of. *)
Definition sum (xs : list Qc) : Qc := foldr Qcplus 0%Qc xs.

Definition Qc_of_nat (n : nat) : Qc := Qc_of_Z (Z.of_nat n).

(** ** Device resolver (part_000, cells 12 to 14) *)

Module Device.

(** [torch.device('cpu')] and [torch.device(f'cuda:{i}')]. *)
Inductive device :=
| Cpu
| Cuda (index : Z).

#[global] Instance device_eq_dec : EqDecision device.
Proof. solve_decision. Defined.

Definition cpu : device := Cpu.

Definition gpu (i : Z) : device := Cuda i.

(** What [torch.cuda.device_count()] answers when it is asked. *)
Record runtime := Runtime { device_count : Z }.

Definition num_gpus (rt : runtime) : Z := device_count rt.

(** [def try_gpu(i=0): if num_gpus() >= i + 1: return gpu(i); return cpu()] *)
Definition try_gpu (rt : runtime) (i : Z) : device :=
  if num_gpus rt >=? i + 1 then gpu i else cpu.

(** [def try_all_gpus(): return [gpu(i) for i in range(num_gpus())]] *)
Definition try_all_gpus (rt : runtime) : list device :=
  gpu <$> range (num_gpus rt).

End Device.

(** ** Device-tagged arrays (part_000, sections Tensors and GPUs, Copying)

    The notebook creates arrays on a device, moves them ([Y.cuda(0)],
    [d2l.to(a, device)]) and adds them ([X + Z]).  Whether a move returns
    the array itself or a copy is a question of object identity, so arrays
    live in a store and are handled through references. *)

Module Store.
Import Device.

Abbreviation ref := positive (only parsing).

Section Arrays.
(** The numbers held by an array; their arithmetic belongs to the
    framework and stays a parameter. *)
Context {C : Type}.

Record tensor := Tensor { tensor_device : device; tensor_data : C }.

(** A new array gets a reference that no live array has. *)
Definition alloc (t : tensor) (σ : gmap ref tensor) : ref * gmap ref tensor :=
  let r := fresh (dom σ) in (r, <[r := t]> σ).

(** Modelled from the spec: [d2l.to(a, device)] and the framework's
    [Tensor.to]/[Tensor.cuda] are not among the sources.  Section 4.2 of
    the spec: "Relocation is defined as a copy when source and
    destination devices differ, and as a no-op (returning the same
    value, not a fresh copy) when source and destination already match";
    the notebook: "It will return Z instead of making a copy and
    allocating new memory."  A reference that is not in the store
    cannot be written in Python; the model raises on it. *)
Definition to (a : ref) (d : device) (σ : gmap ref tensor)
  : result ref * gmap ref tensor :=
  match σ !! a with
  | None => (Raise RuntimeError, σ)
  | Some t =>
      if decide (tensor_device t = d) then (Ok a, σ)
      else
        let '(r, σ') := alloc (Tensor d (tensor_data t)) σ in
        (Ok r, σ')
  end.

(** [Z.cuda(i)] is [Z.to(gpu(i))]. *)
Definition cuda (a : ref) (i : Z) (σ : gmap ref tensor)
  : result ref * gmap ref tensor :=
  to a (gpu i) σ.

(** Modelled from the spec: the framework's binary operators ([X + Z])
    are not among the sources.  Section 3 of the spec: "an operation
    combining two array-like values on different Devices is rejected
    (signals an error) rather than silently copying data"; section 8:
    "combining two on the same device succeeds and produces a value on
    that device"; the notebook: "Do not simply add X and Y, since this
    will result in an exception."  [op] is the arithmetic on the
    contents. *)
Definition combine (op : C → C → C) (x y : ref) (σ : gmap ref tensor)
  : result ref * gmap ref tensor :=
  match σ !! x, σ !! y with
  | Some tx, Some ty =>
      if decide (tensor_device tx = tensor_device ty) then
        let '(r, σ') :=
          alloc (Tensor (tensor_device tx)
                        (op (tensor_data tx) (tensor_data ty))) σ in
        (Ok r, σ')
      else (Raise RuntimeError, σ)
  | _, _ => (Raise RuntimeError, σ)
  end.

End Arrays.
Arguments tensor C : clear implicits.

End Store.

(** ** The trainer's device list and batch preparation (part_000, cell 25) *)

Module Trainer.
Import Device Store.

(** The attributes [save_hyperparameters()] stores, and [self.gpus]. *)
Record trainer := Build_trainer {
  max_epochs : Z;
  num_gpus : Z;
  gradient_clip_val : Z;
  gpus : list device
}.

(** [def __init__(self, max_epochs, num_gpus=0, gradient_clip_val=0):
       self.save_hyperparameters()
       self.gpus = [d2l.gpu(i) for i in range(min(num_gpus, d2l.num_gpus()))]]
    A keyword argument left out is [None] here and takes its default. *)
Definition init (rt : runtime) (max_epochs : Z) (num_gpus : option Z)
    (gradient_clip_val : option Z) : trainer :=
  let num_gpus := default 0 num_gpus in
  let gradient_clip_val := default 0 gradient_clip_val in
  {| max_epochs := max_epochs;
     num_gpus := num_gpus;
     gradient_clip_val := gradient_clip_val;
     gpus := gpu <$> range (Z.min num_gpus (Device.num_gpus rt)) |}.

Section Batches.
Context {C : Type}.

(** [[d2l.to(a, dev) for a in batch]]: the elements are moved from left
    to right, each move seeing the store the previous one left. *)
Fixpoint to_each (dev : device) (batch : list ref) (σ : gmap ref (tensor C))
  : result (list ref) * gmap ref (tensor C) :=
  match batch with
  | [] => (Ok [], σ)
  | a :: rest =>
      match to a dev σ with
      | (Ok a', σ1) =>
          match to_each dev rest σ1 with
          | (Ok rest', σ2) => (Ok (a' :: rest'), σ2)
          | (Raise e, σ2) => (Raise e, σ2)
          end
      | (Raise e, σ1) => (Raise e, σ1)
      end
  end.

(** [def prepare_batch(self, batch):
       if self.gpus:
           batch = [d2l.to(a, self.gpus[0]) for a in batch]
       return batch] *)
Definition prepare_batch (self : trainer) (batch : list ref)
    (σ : gmap ref (tensor C)) : result (list ref) * gmap ref (tensor C) :=
  match gpus self with
  | [] => (Ok batch, σ)
  | dev :: _ => to_each dev batch σ
  end.

(** [moved σ σ' dev a a']: [a'] is what moving [a] to [dev] gives: an
    array of [σ'] on [dev] with the content [a] has in [σ], and [a] itself
    when it was on [dev] already. *)
Definition moved (σ σ' : gmap ref (tensor C)) (dev : device) (a a' : ref)
  : Prop :=
  ∃ t, σ !! a = Some t ∧
       σ' !! a' = Some (Tensor dev (tensor_data t)) ∧
       (tensor_device t = dev → a' = a).

End Batches.

End Trainer.

(** ** Arrays of rank one and two, and the [d2l] array helpers

    The accuracy helpers receive predictions and labels as arrays: flat
    sequences of labels and two-dimensional arrays of scores.  The model
    has exactly these two ranks: [Vec xs] has shape
    [(len xs,)], and [Mat c rows] has shape [(len rows, c)] with every row
    of length [c] (see [wf]).  The number of columns is kept apart from
    the rows because an array with no rows still has a second axis. *)

Module Array.

Inductive ndarray (A : Type) :=
| Vec (xs : list A)
| Mat (ncols : nat) (rows : list (list A)).
Arguments Vec {A} xs.
Arguments Mat {A} ncols rows.

Definition wf {A} (t : ndarray A) : Prop :=
  match t with
  | Vec _ => True
  | Mat c rows => Forall (λ r, length r = c) rows
  end.

(** [t.shape] *)
Definition shape {A} (t : ndarray A) : list nat :=
  match t with
  | Vec xs => [length xs]
  | Mat c rows => [length rows; c]
  end.

(** [t.shape[-1]] *)
Definition last_dim {A} (t : ndarray A) : nat := default 0%nat (last (shape t)).

(** The entries in row-major order. *)
Definition flatten {A} (t : ndarray A) : list A :=
  match t with
  | Vec xs => xs
  | Mat _ rows => concat rows
  end.

(** Entry-wise application; [d2l.astype] is an instance. *)
Definition amap {A B} (f : A → B) (t : ndarray A) : ndarray B :=
  match t with
  | Vec xs => Vec (A:=B) (f <$> xs)
  | Mat c rows => Mat (A:=B) c (fmap (M:=list) f <$> rows)
  end.

(** [n] consecutive blocks of [k] entries. *)
Fixpoint chunks {A} (k n : nat) (d : list A) : list (list A) :=
  match n with
  | O => []
  | S n' => take k d :: chunks k n' (drop k d)
  end.

(** Modelled from the spec: [d2l.reshape] is the framework's [reshape],
    not among the sources.  [reshape(t, (-1, k))] keeps the row-major
    entries and cuts them into rows of [k]; the framework rejects it when
    [k] does not divide the number of entries, and when [k] is zero (the
    free dimension is then not determined). *)
Definition reshape_rows {A} (k : nat) (t : ndarray A) : result (ndarray A) :=
  let d := flatten t in
  if (k =? 0)%nat then Raise RuntimeError
  else if (length d mod k =? 0)%nat then Ok (Mat k (chunks k (length d / k) d))
  else Raise RuntimeError.

(** [reshape(t, -1)] *)
Definition reshape_flat {A} (t : ndarray A) : ndarray A := Vec (flatten t).

Section Argmax.
Context {A : Type} (gtb : A → A → bool).

(** One pass from left to right: [best], found at index [bi], is the
    greatest entry so far and [i] is the index of the head of [l]; only an
    entry that is strictly greater replaces it, so that of equal maxima the
    first one is kept. *)
Fixpoint argmax_from (best : A) (bi i : nat) (l : list A) : nat :=
  match l with
  | [] => bi
  | x :: l' =>
      if gtb x best then argmax_from x i (S i) l'
      else argmax_from best bi (S i) l'
  end.

Definition argmax_row (l : list A) : nat :=
  match l with
  | [] => 0%nat
  | x :: l' => argmax_from x 0 1 l'
  end.

(** Modelled from the spec: [d2l.argmax] is the framework's [argmax], not
    among the sources.  Section 4.3 of the spec: "taking the index of the
    maximum score along that axis; ties broken by lowest index
    (first-maximum convention)".  Axis 1 does not exist on a flat array
    and cannot be reduced when it has size zero. *)
Definition argmax_axis1 (t : ndarray A) : result (ndarray nat) :=
  match t with
  | Vec _ => Raise IndexError
  | Mat c rows =>
      if (c =? 0)%nat then Raise IndexError
      else Ok (Vec (argmax_row <$> rows))
  end.

(** The hard predictions of a score matrix, as integer labels: the first
    maximum of each row. *)
Definition hard_preds (rows : list (list A)) : list Z :=
  Z.of_nat <$> (argmax_row <$> rows).

End Argmax.

(** The size two axes of sizes [n] and [m] broadcast to: equal sizes, or
    one of them is 1. *)
Definition bdim (n m : nat) : result nat :=
  if (n =? m)%nat then Ok n
  else if (n =? 1)%nat then Ok m
  else if (m =? 1)%nat then Ok n
  else Raise RuntimeError.

(** An axis of size 1 is repeated [n] times, any other is left alone. *)
Definition stretch {A} (n : nat) (xs : list A) : list A :=
  match xs with
  | [x] => replicate n x
  | _ => xs
  end.

Definition bcast {A B C} (f : A → B → C) (xs : list A) (ys : list B)
  : result (list C) :=
  n ← bdim (length xs) (length ys);
  Ok (zip_with f (stretch n xs) (stretch n ys)).

(** A flat array of [n] entries broadcasts against a matrix as one row. *)
Definition as_rows {A} (t : ndarray A) : nat * list (list A) :=
  match t with
  | Vec xs => (length xs, [xs])
  | Mat c rows => (c, rows)
  end.

(** Modelled from the spec: the entry-wise operators of the framework are
    not among the sources.  Section 7 of the spec: "shape/length mismatch
    between predictions and labels in the evaluation helper — surfaced
    immediately".  The framework aligns the shapes from the last axis and
    repeats axes of size 1; the result has the larger rank. *)
Definition elementwise {A B C} (f : A → B → C) (a : ndarray A) (b : ndarray B)
  : result (ndarray C) :=
  match a, b with
  | Vec xs, Vec ys => Vec <$> bcast f xs ys
  | _, _ =>
      let '(c1, rows1) := as_rows a in
      let '(c2, rows2) := as_rows b in
      r ← bdim (length rows1) (length rows2);
      c ← bdim c1 c2;
      Ok (Mat c (zip_with (λ r1 r2, zip_with f (stretch c r1) (stretch c r2))
                          (stretch r rows1) (stretch r rows2)))
  end.

(** [a == b] on integer labels. *)
Definition eq_arrays (a b : ndarray Z) : result (ndarray bool) :=
  elementwise Z.eqb a b.

(** [d2l.astype(cmp, d2l.float32)]: false is 0 and true is 1.  Floating
    point values are exact rationals here; 0 and 1, their sums below 2^24
    and quotients such as 1/2 and 3/4 are exact in float32 as well. *)
Definition to_float32 (b : bool) : Qc := if b then 1%Qc else 0%Qc.

(** Modelled from the spec: [d2l.reduce_mean] is the framework's [mean],
    not among the sources.  Section 4.3 of the spec: "reduce it to a
    single accuracy value by arithmetic mean".  The mean of no entries is
    not a number: [None]. *)
Definition reduce_mean (t : ndarray Qc) : option Qc :=
  match flatten t with
  | [] => None
  | d => Some (sum d / Qc_of_nat (length d))%Qc
  end.

(** The accuracy of hard predictions: [preds == y], entries turned into
    0 and 1, then the mean.  Both helpers end in these steps. *)
Definition compare_mean (preds y : ndarray Z) : result (option Qc) :=
  cmp ← eq_arrays preds y;
  Ok (reduce_mean (amap to_float32 cmp)).

(** The correctness sequence of hard predictions against labels, position
    by position. *)
Definition correctness (preds ys : list Z) : list Qc :=
  to_float32 <$> zip_with Z.eqb preds ys.

End Array.

(** ** [Classification.accuracy] (part_001, lines 83 to 90) *)

Module Classification.
Import Array.

Section Accuracy.
(** The scores with their order, and [d2l.astype(y_hat, y.dtype)] on them;
    labels are integers. *)
Context {score : Type} (gtb : score → score → bool) (cast : score → Z).

(** [def accuracy(self, y_hat, y):
       if len(y_hat.shape) > 1 and y_hat.shape[1] > 1:
           y_hat = d2l.argmax(y_hat, axis=1)
       cmp = d2l.astype(y_hat, y.dtype) == y
       return d2l.reduce_mean(d2l.astype(cmp, d2l.float32))] *)
Definition accuracy (y_hat : ndarray score) (y : ndarray Z)
  : result (option Qc) :=
  y_hat' ← (if (1 <? length (shape y_hat))%nat
               && (1 <? nth 1 (shape y_hat) 0)%nat
            then amap Z.of_nat <$> argmax_axis1 gtb y_hat
            else Ok (amap cast y_hat));
  cmp ← eq_arrays y_hat' y;
  Ok (reduce_mean (amap to_float32 cmp)).

End Accuracy.
End Classification.

(** ** [Classifier.accuracy] (classification.ipynb, cell 4) *)

Module Classifier.
Import Array.

(** The helper returns one number when averaged and an array otherwise. *)
Inductive output :=
| Scalar (m : option Qc)
| Elems (t : ndarray Qc).

Section Accuracy.
Context {score : Type} (gtb : score → score → bool).

(** [def accuracy(self, Y_hat, Y, averaged=True):
       Y_hat = d2l.reshape(Y_hat, (-1, Y_hat.shape[-1]))
       preds = d2l.astype(d2l.argmax(Y_hat, axis=1), Y.dtype)
       compare = d2l.astype(preds == d2l.reshape(Y, -1), d2l.float32)
       return d2l.reduce_mean(compare) if averaged else compare] *)
Definition accuracy (Y_hat : ndarray score) (Y : ndarray Z)
    (averaged : option bool) : result output :=
  let averaged := default true averaged in
  Y_hat ← reshape_rows (last_dim Y_hat) Y_hat;
  am ← argmax_axis1 gtb Y_hat;
  let preds := amap Z.of_nat am in
  cmp ← eq_arrays preds (reshape_flat Y);
  let compare := amap to_float32 cmp in
  Ok (if averaged then Scalar (reduce_mean compare) else Elems compare).

End Accuracy.
End Classifier.

(** ** Mean imputation (pandas.ipynb, cell 7) *)

Module Pandas.

(** A numeric column is a list of entries, [None] being the missing value
    (NaN); a data frame maps column names to columns. *)
Abbreviation column := (list (option Qc)) (only parsing).

(** The entries that are not missing. *)
Definition present (col : column) : list Qc := omap id col.

(** Modelled from the spec: [mean] of the dataframe library is not among
    the sources.  It is the arithmetic mean of the non-missing entries of
    a column (the notebook prints 3.0 for NaN, 2.0, 4.0, NaN); a column
    without any has no mean (NaN). *)
Definition mean (col : column) : option Qc :=
  match present col with
  | [] => None
  | xs => Some (sum xs / Qc_of_nat (length xs))%Qc
  end.

(** Modelled from the spec: [fillna] of the dataframe library is not among
    the sources.  Section 8 of the spec: "replacing missing numeric entries
    with the column's mean"; every missing entry becomes [value], the
    others stay.  Filling with NaN changes nothing. *)
Definition fillna (col : column) (value : option Qc) : column :=
  match value with
  | None => col
  | Some v => (λ x, Some (default v x)) <$> col
  end.

(** [inputs.mean()]: one mean per column. *)
Definition df_mean (df : gmap string column) : gmap string (option Qc) :=
  mean <$> df.

(** [inputs.fillna(values)]: each column is filled with the value stored
    under its own name; a column without one is left as it is. *)
Definition df_fillna (df : gmap string column)
    (values : gmap string (option Qc)) : gmap string column :=
  map_imap (λ name col, Some (fillna col (values !! name ≫= id))) df.

(** [inputs = inputs.fillna(inputs.mean())] *)
Definition impute (df : gmap string column) : gmap string column :=
  df_fillna df (df_mean df).

End Pandas.


(** ** The device handle with the framework's index check (part_000,
    cells 12 and 14) *)

Module Checked.
Import Device.

(** Modelled from the spec: [torch.device] is the framework's, not among
    the sources.  Section 4.1 of the spec: "constructing this handle does
    not itself validate availability"; what the framework does check is
    the sign of the index: [torch.device(f'cuda:{i}')] raises RuntimeError
    for a negative [i].
    [def gpu(i=0): return torch.device(f'cuda:{i}')] *)
Definition gpu (i : Z) : result device :=
  if i <? 0 then Raise RuntimeError else Ok (Cuda i).

(** [def try_gpu(i=0): if num_gpus() >= i + 1: return gpu(i); return cpu()]
    with the call of [gpu] that can raise. *)
Definition try_gpu (rt : runtime) (i : Z) : result device :=
  if num_gpus rt >=? i + 1 then gpu i else Ok cpu.

End Checked.

(** ** Mean imputation in binary64 (pandas.ipynb, cell 7)

    The columns of the notebook hold float64 numbers and a missing entry
    is NaN.  [Pandas] above computes with exact rationals; here the same
    two operations are computed with the floating point numbers of the
    notebook. *)

Module Pandas64.
Import PrimFloat.

Definition is_nan (x : float) : bool := negb (PrimFloat.eqb x x).

(** The entries that are not missing, in their order. *)
Definition present (col : list float) : list float :=
  filter (λ x, is_nan x = false) col.

(** The count of entries as a float: exact below 2^53. *)
Definition float_of_nat (n : nat) : float :=
  Nat.iter n (λ c, PrimFloat.add c 1%float) 0%float.

(** The non-missing entries added from left to right. *)
Definition sum (xs : list float) : float := foldl PrimFloat.add 0%float xs.

(** Modelled from the spec: [mean] of the dataframe library is not among
    the sources.  The arithmetic mean of the non-missing entries: their
    sum, each addition rounded to binary64, divided by their count; NaN
    for a column without any. *)
Definition mean (col : list float) : float :=
  match present col with
  | [] => nan
  | xs => PrimFloat.div (sum xs) (float_of_nat (length xs))
  end.

(** Modelled from the spec: [fillna] of the dataframe library is not among
    the sources.  Every missing entry becomes [value], the others stay. *)
Definition fillna (col : list float) (value : float) : list float :=
  (λ x, if is_nan x then value else x) <$> col.

(** [inputs.fillna(inputs.mean())] on one column. *)
Definition impute (col : list float) : list float := fillna col (mean col).

End Pandas64.

(** ** Concrete inputs used below *)

Module Examples.
Import Array.

(** A score matrix with four rows and two classes; the row maxima are at
    columns 0, 1, 0, 0 (the third row is a tie, decided for the first). *)
Definition scores : ndarray Z := Mat 2 [[3; 1]; [0; 2]; [5; 5]; [1; 0]].

(** The labels of the accuracy example of the spec. *)
Definition labels : ndarray Z := Vec [0; 1; 1; 0].

End Examples.

(** ** Attaching a model to the trainer (part_000, cell 25) *)

Module Model.
Import Device Store.

(** What [prepare_model] touches of a model: its parameters, which are
    arrays in the store, the trainer it belongs to, and the range of the
    x-axis of its progress board. *)
Record model := Build_model {
  parameters : list ref;
  trainer : option Trainer.trainer;
  board_xlim : option (Z * Z)
}.

Section Models.
Context {C : Type}.

(** Modelled from the spec: [model.to(device)] is the framework's
    [Module.to], not among the sources.  It relocates the parameters of
    the module itself (the notebook: "The following code puts the model
    parameters on the GPU", and [net[0].weight.data.device] is the device
    given to [net.to]); the parameters keep their identity and, as in
    section 4.2 of the spec, their content. *)
Definition module_to (params : list ref) (dev : device)
    (σ : gmap ref (tensor C)) : gmap ref (tensor C) :=
  foldr (λ p σ, alter (λ t, Tensor dev (tensor_data t)) p σ) σ params.

(** [def prepare_model(self, model):
       model.trainer = self
       model.board.xlim = [0, self.max_epochs]
       if self.gpus:
           model.to(self.gpus[0])
       self.model = model]
    The model returned is the one [self.model] holds after the call. *)
Definition prepare_model (self : Trainer.trainer) (m : model)
    (σ : gmap ref (tensor C)) : model * gmap ref (tensor C) :=
  let m' := {| parameters := parameters m;
               trainer := Some self;
               board_xlim := Some (0, Trainer.max_epochs self) |} in
  match Trainer.gpus self with
  | [] => (m', σ)
  | dev :: _ => (m', module_to (parameters m') dev σ)
  end.

(** Whether moving [a] to [dev] has to copy it. *)
Definition needs_copy (σ : gmap ref (tensor C)) (dev : device) (a : ref)
  : bool :=
  match σ !! a with
  | Some t => bool_decide (tensor_device t ≠ dev)
  | None => false
  end.

(** [a] is a live array on [dev]. *)
Definition on_device (σ : gmap ref (tensor C)) (dev : device) (a : ref)
  : Prop :=
  ∃ t, σ !! a = Some t ∧ tensor_device t = dev.

End Models.
End Model.

(** ** Counting missing values (pandas.ipynb, cell 12) *)

Module Exercise.
Import Pandas.

Definition missing (col : column) : nat :=
  length (filter (λ x, x = None) col).

(** [df.isna().sum()]: the number of missing entries of each column. *)
Definition isna_sum (df : gmap string column) : gmap string nat :=
  missing <$> df.

(** [df.isna().sum()/df.shape[1]], printed under the comment
    "Fraction of NaN's": [df.shape[1]] is the number of columns. *)
Definition nan_report (df : gmap string column) : gmap string Qc :=
  (λ k, Qc_of_nat k / Qc_of_nat (size df))%Qc <$> isna_sum df.

End Exercise.

(** * Properties *)

(** ** The device resolver *)

Module DeviceFacts.
Import Device.

Lemma range_lookup (n : Z) (i : nat) (j : Z) :
  range n !! i = Some j ↔ j = Z.of_nat i ∧ Z.of_nat i < n.
Proof. unfold range. rewrite lookup_seqZ. by rewrite Z.add_0_l. Qed.

Lemma range_length (n : Z) : length (range n) = Z.to_nat n.
Proof. apply length_seqZ. Qed.

(** The list [gpu(0), ..., gpu(n-1)]: its length and its entries. *)
Lemma gpus_upto_length (n : Z) : length (gpu <$> range n) = Z.to_nat n.
Proof. by rewrite length_fmap, range_length. Qed.

Lemma gpus_upto_lookup (n : Z) (i : nat) (d : device) :
  (gpu <$> range n) !! i = Some d ↔ d = gpu (Z.of_nat i) ∧ Z.of_nat i < n.
Proof.
  rewrite list_lookup_fmap, fmap_Some. split.
  - intros (j & Hj & ->). apply range_lookup in Hj as [-> ?]. done.
  - intros [-> ?]. exists (Z.of_nat i). by rewrite range_lookup.
Qed.

Lemma cpu_not_in_gpus_upto (n : Z) : cpu ∉ gpu <$> range n.
Proof. rewrite list_elem_of_fmap. by intros (i & ? & _). Qed.

(** C4: for every [i >= 0], [try_gpu(i)] is [gpu(i)] when
    [i < num_gpus()] and [cpu()] otherwise.  The function is total: it
    returns a device for every input and has no failing branch. *)
Theorem try_gpu_spec (rt : runtime) (i : Z) :
  0 ≤ i →
  (i < num_gpus rt → try_gpu rt i = gpu i) ∧
  (¬ i < num_gpus rt → try_gpu rt i = cpu) ∧
  (try_gpu rt i ≠ cpu ↔ i < num_gpus rt).
Proof.
  intros _. unfold try_gpu.
  destruct (num_gpus rt >=? i + 1) eqn:E; rewrite Z.geb_leb in E.
  - apply Z.leb_le in E. repeat split; try done; try lia.
  - apply Z.leb_gt in E. repeat split; try done; try lia.
Qed.

Lemma try_gpu_spec_witness :
  try_gpu (Runtime 1) 0 = gpu 0 ∧ try_gpu (Runtime 1) 10 = cpu.
Proof.
  split.
  - apply (try_gpu_spec (Runtime 1) 0); simpl; lia.
  - apply (try_gpu_spec (Runtime 1) 10); simpl; lia.
Defined.

(** [try_all_gpus()] is [gpu(0), ..., gpu(n-1)] for [n = num_gpus()]:
    [n] handles in increasing index order, none of them the CPU. *)
Lemma try_all_gpus_some (rt : runtime) :
  length (try_all_gpus rt) = Z.to_nat (num_gpus rt) ∧
  (∀ (i : nat) d,
     try_all_gpus rt !! i = Some d ↔
     d = gpu (Z.of_nat i) ∧ Z.of_nat i < num_gpus rt) ∧
  cpu ∉ try_all_gpus rt.
Proof.
  unfold try_all_gpus. split; [apply gpus_upto_length|].
  split; [intros i d; apply gpus_upto_lookup|apply cpu_not_in_gpus_upto].
Qed.

(** C1, at the input where the code leaves its docstring ("or [cpu(), ],
    if no GPU exists"): without a GPU the list is empty, not [[cpu()]]. *)
Theorem try_all_gpus_none :
  num_gpus (Runtime 0) = 0 ∧
  try_all_gpus (Runtime 0) = [] ∧
  try_all_gpus (Runtime 0) ≠ [cpu].
Proof. repeat split. discriminate. Qed.

(** The output of the notebook's cell 14, run where one GPU is available:
    [(device(type='cuda', index=0), device(type='cpu'),
      [device(type='cuda', index=0)])]. *)
Example cell_14 :
  (try_gpu (Runtime 1) 0, try_gpu (Runtime 1) 10, try_all_gpus (Runtime 1))
  = (Cuda 0, Cpu, [Cuda 0]).
Proof. reflexivity. Qed.

End DeviceFacts.

(** ** Moving and combining arrays *)

Module StoreFacts.
Import Device Store.

Section Arrays.
Context {C : Type}.
Implicit Types (σ : gmap ref (tensor C)) (t : tensor C) (d : device).

Lemma fresh_unused σ : σ !! fresh (dom σ) = None.
Proof. apply not_elem_of_dom, is_fresh. Qed.

Lemma alloc_extends t σ : σ ⊆ (alloc t σ).2.
Proof. apply insert_subseteq, fresh_unused. Qed.

Lemma tensor_eta t : Tensor (tensor_device t) (tensor_data t) = t.
Proof. by destruct t. Qed.

(** What a move of a live array does, in the form the batch preparation
    needs: it succeeds, keeps every live array as it is, and returns an
    array on [d] with the content of [a]; only the returned reference can
    be new. *)
Lemma to_live (a : ref) d σ t :
  σ !! a = Some t →
  ∃ a' σ', to a d σ = (Ok a', σ') ∧
    σ ⊆ σ' ∧
    σ' !! a' = Some (Tensor d (tensor_data t)) ∧
    (tensor_device t = d → a' = a) ∧
    (∀ r, is_Some (σ' !! r) → is_Some (σ !! r) ∨ r = a').
Proof.
  intros Ha. unfold to. rewrite Ha.
  destruct (decide (tensor_device t = d)) as [Hd|Hd].
  - exists a, σ. repeat split; try done.
    + by rewrite Ha, <- Hd, tensor_eta.
    + auto.
  - simpl. eexists _, _. repeat split.
    + apply insert_subseteq, fresh_unused.
    + apply lookup_insert_eq.
    + done.
    + intros r. rewrite lookup_insert. case_decide; auto.
Qed.

(** C8: a move to the device the array is already on returns the very
    same reference and leaves the store alone; a move to another device
    returns a reference that was not in use, bound to an array with the
    same content and the new device, and the original stays as it was. *)
Theorem to_same_or_copy (a : ref) d σ t :
  σ !! a = Some t →
  (tensor_device t = d → to a d σ = (Ok a, σ)) ∧
  (tensor_device t ≠ d →
     ∃ r, to a d σ = (Ok r, <[r := Tensor d (tensor_data t)]> σ) ∧
          r ≠ a ∧ σ !! r = None ∧
          <[r := Tensor d (tensor_data t)]> σ !! a = Some t).
Proof.
  intros Ha. unfold to. rewrite Ha. split; intros Hd.
  - by rewrite decide_True.
  - rewrite decide_False by done. simpl.
    pose proof (fresh_unused σ) as Hf.
    exists (fresh (dom σ)). repeat split; try done.
    + intros E. rewrite E in Hf. congruence.
    + rewrite lookup_insert_ne; [done|]. intros E. rewrite E in Hf. congruence.
Qed.

(** C7: combining two live arrays on different devices raises, and
    nothing is copied: the store is the one before the call; on the same
    device a new array on that device holds the combined content. *)
Theorem combine_devices (op : C → C → C) (x y : ref) σ tx ty :
  σ !! x = Some tx → σ !! y = Some ty →
  (tensor_device tx ≠ tensor_device ty →
     combine op x y σ = (Raise RuntimeError, σ)) ∧
  (tensor_device tx = tensor_device ty →
     ∃ r, combine op x y σ =
            (Ok r, <[r := Tensor (tensor_device tx)
                                 (op (tensor_data tx) (tensor_data ty))]> σ) ∧
          σ !! r = None).
Proof.
  intros Hx Hy. unfold combine. rewrite Hx, Hy. split; intros Hd.
  - by rewrite decide_False.
  - rewrite decide_True by done. simpl. eexists. split; [done|].
    apply fresh_unused.
Qed.

End Arrays.

(** The notebook's [Z = Y.cuda(0)] followed by [Z.cuda(0)]: the first call
    copies [Y] from the CPU, the second returns [Z] itself. *)
Example cuda_twice :
  let σ : gmap ref (tensor Z) := {[ 1%positive := Tensor cpu 7 ]} in
  ∃ z σ', cuda 1%positive 0 σ = (Ok z, σ') ∧ z ≠ 1%positive ∧
          cuda z 0 σ' = (Ok z, σ').
Proof.
  eexists _, _. split; [vm_compute; reflexivity|]. split; [done|].
  vm_compute. reflexivity.
Qed.

(** The notebook's session with one GPU: [X] is created on [try_gpu()],
    the first GPU, and [Y] on [try_gpu(1)], the CPU.  [X + Y] raises and
    leaves the store as it is; after [Z = Y.cuda(0)] the sum [X + Z] is a
    new array on the first GPU. *)
Example copying_session :
  let rt := Runtime 1 in
  let σ : gmap ref (tensor Z) :=
    {[ 1%positive := Tensor (try_gpu rt 0) 1;
       2%positive := Tensor (try_gpu rt 1) 5 ]} in
  combine Z.add 1%positive 2%positive σ = (Raise RuntimeError, σ) ∧
  ∃ z σ1 s σ2,
    cuda 2%positive 0 σ = (Ok z, σ1) ∧
    combine Z.add 1%positive z σ1 = (Ok s, σ2) ∧
    σ2 !! s = Some (Tensor (gpu 0) 6) ∧
    σ2 !! 2%positive = Some (Tensor cpu 5).
Proof.
  split; [reflexivity|].
  eexists _, _, _, _. split; [vm_compute; reflexivity|].
  split; [vm_compute; reflexivity|]. split; reflexivity.
Qed.

Lemma to_same_or_copy_witness :
  to (C:=Z) 1%positive (gpu 0) {[ 1%positive := Tensor (gpu 0) 7 ]}
    = (Ok 1%positive, {[ 1%positive := Tensor (gpu 0) 7 ]}).
Proof.
  apply (to_same_or_copy 1%positive (gpu 0) {[ 1%positive := Tensor (gpu 0) 7 ]}
           (Tensor (gpu 0) 7)); reflexivity.
Defined.

Lemma combine_devices_witness :
  combine Z.add 1%positive 2%positive
    {[ 1%positive := Tensor (gpu 0) 1; 2%positive := Tensor (gpu 1) 2 ]}
  = (Raise RuntimeError,
     {[ 1%positive := Tensor (gpu 0) 1; 2%positive := Tensor (gpu 1) 2 ]}).
Proof.
  apply (combine_devices Z.add 1%positive 2%positive
           {[ 1%positive := Tensor (gpu 0) 1; 2%positive := Tensor (gpu 1) 2 ]}
           (Tensor (gpu 0) 1) (Tensor (gpu 1) 2)).
  - reflexivity.
  - reflexivity.
  - simpl. discriminate.
Defined.

End StoreFacts.

(** ** The trainer *)

Module TrainerFacts.
Import Device Store Trainer.

Section Batches.
Context {C : Type}.
Implicit Types (σ : gmap ref (tensor C)) (batch : list ref) (dev : device).

(** The comprehension, started in any store [σ] that extends the store
    [σ0] the batch lives in. *)
Lemma to_each_live dev batch σ0 σ :
  σ0 ⊆ σ →
  Forall (λ a, is_Some (σ0 !! a)) batch →
  ∃ batch' σ', to_each dev batch σ = (Ok batch', σ') ∧
    σ ⊆ σ' ∧
    Forall2 (moved σ0 σ' dev) batch batch' ∧
    (∀ r, is_Some (σ' !! r) → is_Some (σ !! r) ∨ r ∈ batch').
Proof.
  revert σ. induction batch as [|a rest IH]; intros σ Hsub Hlive.
  - exists [], σ. repeat split; auto.
  - apply Forall_cons in Hlive as [[t Ht] Hrest].
    pose proof (lookup_weaken _ _ _ _ Ht Hsub) as Ht'.
    destruct (StoreFacts.to_live a dev σ t Ht')
      as (a' & σ1 & Hto & Hsub1 & Ha' & Hsame & Hnew1).
    destruct (IH σ1) as (rest' & σ2 & Heach & Hsub2 & Hmoved & Hnew2);
      [by transitivity σ|done|].
    exists (a' :: rest'), σ2. simpl. rewrite Hto, Heach.
    repeat split.
    + by transitivity σ1.
    + constructor; [|done]. exists t. repeat split; try done.
      by apply (lookup_weaken σ1).
    + intros r Hr. destruct (Hnew2 r Hr) as [H1|H1].
      * destruct (Hnew1 r H1) as [?| ->]; [by left|]. right. left.
      * right. by right.
Qed.

(** C5: on a batch of live arrays [prepare_batch] returns a batch.  With
    no configured device it is the batch it was given and the store is
    untouched.  Otherwise the returned batch has, position by position,
    the arrays moved to the first configured device.  Every array that
    existed before the call is unchanged, and every array that exists
    only after it is an element of the returned batch. *)
Theorem prepare_batch_spec (self : trainer) batch σ :
  Forall (λ a, is_Some (σ !! a)) batch →
  ∃ batch' σ', prepare_batch self batch σ = (Ok batch', σ') ∧
    (gpus self = [] → batch' = batch ∧ σ' = σ) ∧
    (∀ dev, head (gpus self) = Some dev →
       Forall2 (moved σ σ' dev) batch batch') ∧
    σ ⊆ σ' ∧
    (∀ r, is_Some (σ' !! r) → is_Some (σ !! r) ∨ r ∈ batch').
Proof.
  intros Hlive. unfold prepare_batch.
  destruct (gpus self) as [|dev devs] eqn:Hg.
  - exists batch, σ. repeat split; auto. intros dev [=].
  - destruct (to_each_live dev batch σ σ (reflexivity _) Hlive)
      as (batch' & σ' & Heach & Hsub & Hmoved & Hnew).
    exists batch', σ'. repeat split; try done.
    intros dev' [= <-]. done.
Qed.

End Batches.

(** C10: after [__init__] the device list is [gpu(0), ..., gpu(n-1)] for
    [n = min(num_gpus, d2l.num_gpus())]; the CPU handle is not in it; it
    is no longer than the number of available GPUs; and when [num_gpus]
    is left at its default the list is empty and [prepare_batch] returns
    every batch as it is. *)
Theorem init_gpus (rt : runtime) (max_epochs : Z)
    (num_gpus gradient_clip_val : option Z) :
  0 ≤ Device.num_gpus rt →
  (let self := init rt max_epochs num_gpus gradient_clip_val in
   let n := Z.min (default 0 num_gpus) (Device.num_gpus rt) in
   length (gpus self) = Z.to_nat n ∧
   (∀ (i : nat) d,
      gpus self !! i = Some d ↔ d = gpu (Z.of_nat i) ∧ Z.of_nat i < n) ∧
   (cpu ∉ gpus self) ∧
   Z.of_nat (length (gpus self)) ≤ Device.num_gpus rt ∧
   (num_gpus = None →
      gpus self = [] ∧
      ∀ (C : Type) (batch : list ref) (σ : gmap ref (tensor C)),
        prepare_batch self batch σ = (Ok batch, σ))).
Proof.
  intros Hrt. simpl. split; [apply DeviceFacts.gpus_upto_length|].
  split; [intros i d; apply DeviceFacts.gpus_upto_lookup|].
  split; [apply DeviceFacts.cpu_not_in_gpus_upto|].
  split; [rewrite DeviceFacts.gpus_upto_length; lia|].
  intros ->. simpl.
  assert (range (0 `min` Device.num_gpus rt) = []) as Hnil.
  { apply seqZ_nil. lia. }
  split; [by rewrite Hnil|].
  intros C batch σ. unfold prepare_batch. simpl. by rewrite Hnil.
Qed.

Lemma init_gpus_witness :
  gpus (init (Runtime 1) 3 (Some 2) None) = [gpu 0] ∧
  Z.of_nat (length (gpus (init (Runtime 1) 3 (Some 2) None))) ≤ 1.
Proof.
  split; [reflexivity|].
  apply (init_gpus (Runtime 1) 3 (Some 2) None). simpl. lia.
Defined.

Lemma prepare_batch_spec_witness :
  ∃ batch' σ',
    prepare_batch (init (Runtime 1) 3 (Some 1) None) [1%positive]
      ({[ 1%positive := Tensor cpu 7 ]} : gmap ref (tensor Z))
    = (Ok batch', σ').
Proof.
  destruct (prepare_batch_spec (init (Runtime 1) 3 (Some 1) None) [1%positive]
              ({[ 1%positive := Tensor cpu 7 ]} : gmap ref (tensor Z)))
    as (batch' & σ' & H & _).
  - repeat constructor. by exists (Tensor cpu 7).
  - by exists batch', σ'.
Defined.

End TrainerFacts.

(** ** The array helpers *)

Module ArrayFacts.
Import Array.

Lemma length_concat_uniform {A} (c : nat) (rows : list (list A)) :
  Forall (λ r, length r = c) rows →
  length (concat rows) = (length rows * c)%nat.
Proof.
  induction 1 as [|r rows Hr _ IH]; [done|].
  simpl. rewrite length_app, IH, Hr. lia.
Qed.

(** Cutting the row-major entries of a matrix into rows of its width gives
    its rows back. *)
Lemma chunks_concat {A} (c : nat) (rows : list (list A)) :
  Forall (λ r, length r = c) rows →
  chunks c (length rows) (concat rows) = rows.
Proof.
  induction 1 as [|r rows Hr _ IH]; [done|].
  simpl. rewrite take_app_length', drop_app_length' by done.
  by rewrite IH.
Qed.

(** [reshape(Y_hat, (-1, Y_hat.shape[-1]))] leaves a matrix as it is. *)
Lemma reshape_rows_mat {A} (c : nat) (rows : list (list A)) :
  wf (Mat c rows) → c ≠ 0%nat →
  reshape_rows (last_dim (Mat c rows)) (Mat c rows) = Ok (Mat c rows).
Proof.
  intros Hwf Hc. unfold reshape_rows, last_dim. simpl.
  rewrite (length_concat_uniform c rows Hwf).
  destruct (Nat.eqb_spec c 0); [done|].
  rewrite Nat.Div0.mod_mul, Nat.eqb_refl, Nat.div_mul by done.
  by rewrite (chunks_concat c rows Hwf).
Qed.

(** [argmax_row] follows the first-maximum convention whenever "greater
    than" is a strict weak order (as it is on integers and on floating
    point numbers that are not NaN): no entry is greater than the one it
    picks, and the one it picks is greater than every entry before it. *)
Section FirstMaximum.
Context {A : Type} (gtb : A → A → bool).
Hypothesis gtb_irrefl : ∀ x, gtb x x = false.
Hypothesis gtb_trans : ∀ x y z, gtb x y = true → gtb y z = true → gtb x z = true.
Hypothesis gtb_incomparable :
  ∀ x y z, gtb x y = false → gtb y z = false → gtb x z = false.

Lemma argmax_from_first_maximum (l p : list A) (best : A) (bi : nat) :
  p !! bi = Some best →
  (∀ x, x ∈ p → gtb x best = false) →
  (∀ j x, (j < bi)%nat → p !! j = Some x → gtb best x = true) →
  ∃ m, (p ++ l) !! argmax_from gtb best bi (length p) l = Some m ∧
       (∀ x, x ∈ p ++ l → gtb x m = false) ∧
       (∀ j x, (j < argmax_from gtb best bi (length p) l)%nat →
               (p ++ l) !! j = Some x → gtb m x = true).
Proof.
  revert p best bi. induction l as [|x l IH]; intros p best bi Hbi Hmax Hfirst.
  - simpl. rewrite app_nil_r. by exists best.
  - simpl. pose proof (IH (p ++ [x])) as IH'.
    rewrite length_app, Nat.add_1_r, <- app_assoc in IH'. simpl in IH'.
    destruct (gtb x best) eqn:Hx.
    + apply IH'.
      * by rewrite lookup_app_r, Nat.sub_diag.
      * intros y [Hy| ->%list_elem_of_singleton]%elem_of_app; [|done].
        destruct (gtb y x) eqn:Hyx; [|done].
        rewrite <- (Hmax y Hy). symmetry. by apply (gtb_trans y x best).
      * intros j y Hj Hy. rewrite lookup_app_l in Hy by done.
        destruct (gtb x y) eqn:Hxy; [done|].
        rewrite <- Hx. symmetry. apply (gtb_incomparable x y best); [done|].
        apply Hmax. by apply list_elem_of_lookup_2 in Hy.
    + apply IH'.
      * apply lookup_app_l_Some, Hbi.
      * intros y [Hy| ->%list_elem_of_singleton]%elem_of_app; auto.
      * intros j y Hj Hy. apply (Hfirst j y Hj).
        apply lookup_lt_Some in Hbi.
        by rewrite lookup_app_l in Hy by lia.
Qed.

Lemma argmax_row_first_maximum (l : list A) :
  l ≠ [] →
  ∃ m, l !! argmax_row gtb l = Some m ∧
       (∀ x, x ∈ l → gtb x m = false) ∧
       (∀ j x, (j < argmax_row gtb l)%nat → l !! j = Some x → gtb m x = true).
Proof.
  destruct l as [|x l]; [done|]. intros _.
  apply (argmax_from_first_maximum l [x] x 0).
  - done.
  - by intros y ->%list_elem_of_singleton.
  - intros j y Hj. lia.
Qed.

End FirstMaximum.

(** On integer scores. *)
Lemma argmax_row_Z (l : list Z) :
  l ≠ [] →
  ∃ m, l !! argmax_row Z.gtb l = Some m ∧
       (∀ x, x ∈ l → x ≤ m) ∧
       (∀ j x, (j < argmax_row Z.gtb l)%nat → l !! j = Some x → x < m).
Proof.
  intros Hl.
  destruct (argmax_row_first_maximum Z.gtb) with (l := l)
    as (m & Hm & Hmax & Hfirst); try done.
  - intros x. rewrite Z.gtb_ltb. apply Z.ltb_irrefl.
  - intros x y z. rewrite !Z.gtb_ltb, !Z.ltb_lt. lia.
  - intros x y z. rewrite !Z.gtb_ltb, !Z.ltb_ge. lia.
  - exists m. split; [done|]. split.
    + intros x Hx. specialize (Hmax x Hx).
      rewrite Z.gtb_ltb, Z.ltb_ge in Hmax. done.
    + intros j x Hj Hx. specialize (Hfirst j x Hj Hx).
      rewrite Z.gtb_ltb, Z.ltb_lt in Hfirst. done.
Qed.

Lemma bdim_same (n : nat) : bdim n n = Ok n.
Proof. unfold bdim. by rewrite Nat.eqb_refl. Qed.

Lemma stretch_same {A} (xs : list A) : stretch (length xs) xs = xs.
Proof. by destruct xs as [|x [|x' xs]]. Qed.

(** Arrays of one length are combined entry by entry. *)
Lemma bcast_same_length {A B C} (f : A → B → C) xs ys :
  length xs = length ys →
  bcast f xs ys = Ok (zip_with f xs ys).
Proof.
  intros Hlen. unfold bcast. rewrite <- Hlen, bdim_same. simpl.
  rewrite stretch_same. rewrite Hlen, stretch_same. done.
Qed.

Lemma eq_arrays_vec (ps ys : list Z) :
  length ps = length ys →
  eq_arrays (Vec ps) (Vec ys) = Ok (Vec (zip_with Z.eqb ps ys)).
Proof.
  intros Hlen. unfold eq_arrays, elementwise.
  by rewrite bcast_same_length.
Qed.

End ArrayFacts.

(** ** The accuracy helpers *)

Module AccuracyFacts.
Import Array ArrayFacts.

Lemma compare_mean_vec (preds ys : list Z) :
  length preds = length ys →
  compare_mean (Vec preds) (Vec ys)
  = Ok (reduce_mean (Vec (correctness preds ys))).
Proof.
  intros Hlen. unfold compare_mean. by rewrite eq_arrays_vec.
Qed.

Section Helpers.
Context {score : Type} (gtb : score → score → bool) (cast : score → Z).

(** [Classification.accuracy] by the shape of [y_hat]. *)
Lemma classification_flat (xs : list score) (y : ndarray Z) :
  Classification.accuracy gtb cast (Vec xs) y
  = compare_mean (Vec (cast <$> xs)) y.
Proof. reflexivity. Qed.

Lemma classification_multiclass (c : nat) (rows : list (list score))
    (y : ndarray Z) :
  (1 < c)%nat →
  Classification.accuracy gtb cast (Mat c rows) y
  = compare_mean (Vec (hard_preds gtb rows)) y.
Proof.
  intros Hc. unfold Classification.accuracy. simpl.
  destruct (Nat.ltb_spec 1 c); [|lia].
  destruct (Nat.eqb_spec c 0); [lia|]. reflexivity.
Qed.

Lemma classification_narrow (c : nat) (rows : list (list score))
    (y : ndarray Z) :
  (c ≤ 1)%nat →
  Classification.accuracy gtb cast (Mat c rows) y
  = compare_mean (amap cast (Mat c rows)) y.
Proof.
  intros Hc. unfold Classification.accuracy. simpl.
  destruct (Nat.ltb_spec 1 c); [lia|]. reflexivity.
Qed.

(** [Classifier.accuracy] on a matrix: the reshape is the identity and the
    labels are flattened. *)
Lemma classifier_matrix (c : nat) (rows : list (list score)) (Y : ndarray Z)
    (averaged : option bool) :
  wf (Mat c rows) → c ≠ 0%nat →
  Classifier.accuracy gtb (Mat c rows) Y averaged
  = cmp ← eq_arrays (Vec (hard_preds gtb rows)) (Vec (flatten Y));
    Ok (if default true averaged
        then Classifier.Scalar (reduce_mean (amap to_float32 cmp))
        else Classifier.Elems (amap to_float32 cmp)).
Proof.
  intros Hwf Hc. unfold Classifier.accuracy.
  rewrite reshape_rows_mat by done. simpl.
  destruct (Nat.eqb_spec c 0); [done|]. reflexivity.
Qed.

(** [Classifier.accuracy] on a flat array: it is reshaped to one row, and
    the single index [argmax] finds in it is compared with every label. *)
Lemma classifier_flat (xs : list score) (Y : ndarray Z)
    (averaged : option bool) :
  xs ≠ [] →
  Classifier.accuracy gtb (Vec xs) Y averaged
  = cmp ← eq_arrays (Vec [Z.of_nat (argmax_row gtb xs)]) (Vec (flatten Y));
    Ok (if default true averaged
        then Classifier.Scalar (reduce_mean (amap to_float32 cmp))
        else Classifier.Elems (amap to_float32 cmp)).
Proof.
  intros Hxs. unfold Classifier.accuracy, reshape_rows, last_dim. simpl.
  assert (length xs ≠ 0%nat) as Hn by (by destruct xs).
  destruct (Nat.eqb_spec (length xs) 0); [done|].
  rewrite Nat.Div0.mod_same, Nat.div_same by done. simpl.
  rewrite take_ge by done. simpl.
  destruct (Nat.eqb_spec (length xs) 0); [done|]. reflexivity.
Qed.

(** [Classification.accuracy] takes a flat array of hard labels or a
    score matrix.  A flat array is cast and compared with the labels as it
    is; a matrix is reduced by [argmax] exactly when its second axis is
    longer than 1.  With as many labels as predictions the result is the
    mean of the correctness sequence. *)
Theorem classification_accuracy_shapes (xs : list score) (c : nat)
    (rows : list (list score)) (y : ndarray Z) (ys : list Z) :
  Classification.accuracy gtb cast (Vec xs) y
    = compare_mean (Vec (cast <$> xs)) y ∧
  Classification.accuracy gtb cast (Mat c rows) y
    = compare_mean (if (1 <? c)%nat then Vec (hard_preds gtb rows)
                    else amap cast (Mat c rows)) y ∧
  (length xs = length ys →
     Classification.accuracy gtb cast (Vec xs) (Vec ys)
     = Ok (reduce_mean (Vec (correctness (cast <$> xs) ys)))) ∧
  ((1 < c)%nat → length rows = length ys →
     Classification.accuracy gtb cast (Mat c rows) (Vec ys)
     = Ok (reduce_mean (Vec (correctness (hard_preds gtb rows) ys)))).
Proof.
  split; [apply classification_flat|]. split.
  - destruct (Nat.ltb_spec 1 c).
    + by apply classification_multiclass.
    + apply classification_narrow. lia.
  - split.
    + intros Hlen. rewrite classification_flat.
      apply compare_mean_vec. by rewrite length_fmap.
    + intros Hc Hlen. rewrite classification_multiclass by done.
      apply compare_mean_vec. unfold hard_preds. by rewrite !length_fmap.
Qed.

(** C6: on a score matrix with more than one column and a flat label
    array with one label per row, [Classifier.accuracy], averaged, and
    [Classification.accuracy] return the same value: the mean of the
    correctness sequence of the row-wise first maxima ([None], not a
    number, for a matrix without rows). *)
Theorem accuracy_helpers_agree (c : nat) (rows : list (list score))
    (ys : list Z) :
  wf (Mat c rows) → (1 < c)%nat → length ys = length rows →
  Classifier.accuracy gtb (Mat c rows) (Vec ys) None
    = Classifier.Scalar <$> Classification.accuracy gtb cast (Mat c rows) (Vec ys) ∧
  Classifier.accuracy gtb (Mat c rows) (Vec ys) (Some true)
    = Classifier.Scalar <$> Classification.accuracy gtb cast (Mat c rows) (Vec ys) ∧
  Classification.accuracy gtb cast (Mat c rows) (Vec ys)
    = Ok (reduce_mean (Vec (correctness (hard_preds gtb rows) ys))).
Proof.
  intros Hwf Hc Hlen.
  assert (length (hard_preds gtb rows) = length ys) as Hp.
  { unfold hard_preds. by rewrite !length_fmap. }
  rewrite classification_multiclass, compare_mean_vec by done.
  rewrite !classifier_matrix by (done || lia).
  change (flatten (Vec ys)) with ys.
  rewrite eq_arrays_vec by done. done.
Qed.

(** The two helpers agree on every flat label array, also when the
    comparison raises because the lengths do not match. *)
Lemma helpers_agree_flat_labels (c : nat) (rows : list (list score))
    (ys : list Z) (averaged : option bool) :
  wf (Mat c rows) → (1 < c)%nat → default true averaged = true →
  Classifier.accuracy gtb (Mat c rows) (Vec ys) averaged
  = Classifier.Scalar <$>
      Classification.accuracy gtb cast (Mat c rows) (Vec ys).
Proof.
  intros Hwf Hc Hav.
  rewrite classification_multiclass, classifier_matrix by (done || lia).
  rewrite Hav. unfold compare_mean. change (flatten (Vec ys)) with ys.
  by destruct (eq_arrays (Vec (hard_preds gtb rows)) (Vec ys)).
Qed.

(** C2 as amended: against the labels 0, 1, 1, 0, a score matrix whose
    row-wise first maxima are at 0, 1, 0, 0 has three of its four
    predictions right: the averaged accuracy is 3/4 and the correctness
    sequence is 1, 1, 0, 1. *)
Theorem accuracy_example (c : nat) (rows : list (list score)) :
  wf (Mat c rows) →
  argmax_row gtb <$> rows = [0; 1; 0; 0]%nat →
  Classifier.accuracy gtb (Mat c rows) Examples.labels (Some true)
    = Ok (Classifier.Scalar (Some (Q2Qc (3 # 4)))) ∧
  Classifier.accuracy gtb (Mat c rows) Examples.labels None
    = Ok (Classifier.Scalar (Some (Q2Qc (3 # 4)))) ∧
  Classifier.accuracy gtb (Mat c rows) Examples.labels (Some false)
    = Ok (Classifier.Elems (Vec [1; 1; 0; 1]%Qc)) ∧
  Classification.accuracy gtb cast (Mat c rows) Examples.labels
    = Ok (Some (Q2Qc (3 # 4))).
Proof.
  intros Hwf Hmax.
  assert (1 < c)%nat as Hc.
  { destruct rows as [|r1 [|r2 rows]]; try discriminate.
    apply Forall_cons in Hwf as [_ Hwf]. apply Forall_cons in Hwf as [<- _].
    injection Hmax as _ H2 _.
    destruct r2 as [|x [|x' r2]]; try discriminate. simpl. lia. }
  assert (reduce_mean (Vec [1; 1; 0; 1]%Qc) = Some (Q2Qc (3 # 4))) as Hmean.
  { unfold reduce_mean. simpl. f_equal; by apply Qc_is_canon. }
  rewrite classification_multiclass by done.
  rewrite !classifier_matrix by (done || lia).
  unfold compare_mean, hard_preds. rewrite Hmax. simpl.
  by rewrite Hmean.
Qed.

End Helpers.

Lemma accuracy_helpers_agree_witness :
  Classifier.accuracy Z.gtb Examples.scores Examples.labels None
  = Classifier.Scalar <$>
      Classification.accuracy Z.gtb id Examples.scores Examples.labels.
Proof.
  apply (accuracy_helpers_agree Z.gtb id 2 [[3; 1]; [0; 2]; [5; 5]; [1; 0]]
           [0; 1; 1; 0]).
  - repeat constructor.
  - simpl. lia.
  - reflexivity.
Defined.

Lemma accuracy_example_witness :
  Classifier.accuracy Z.gtb Examples.scores Examples.labels (Some false)
  = Ok (Classifier.Elems (Vec [1; 1; 0; 1]%Qc)).
Proof.
  apply (accuracy_example Z.gtb id 2 [[3; 1]; [0; 2]; [5; 5]; [1; 0]]).
  - repeat constructor.
  - reflexivity.
Defined.

(** C2 as stated fails: on [Examples.scores], whose row maxima are at
    0, 1, 0, 0, and the labels 0, 1, 1, 0, the averaged accuracy is not
    1/2 and the correctness sequence is not 1, 0, 0, 1. *)
Lemma accuracy_example_not_half :
  Examples.labels = Vec [0; 1; 1; 0] ∧
  wf Examples.scores ∧
  hard_preds Z.gtb [[3; 1]; [0; 2]; [5; 5]; [1; 0]] = [0; 1; 0; 0] ∧
  Classifier.accuracy Z.gtb Examples.scores Examples.labels (Some true)
    ≠ Ok (Classifier.Scalar (Some (Q2Qc (1 # 2)))) ∧
  Classifier.accuracy Z.gtb Examples.scores Examples.labels (Some false)
    ≠ Ok (Classifier.Elems (Vec [1; 0; 0; 1]%Qc)) ∧
  Classification.accuracy Z.gtb id Examples.scores Examples.labels
    ≠ Ok (Some (Q2Qc (1 # 2))).
Proof.
  split; [reflexivity|]. split; [repeat constructor|].
  split; [reflexivity|].
  repeat split; vm_compute; intros H; discriminate H.
Qed.

(** The notebook's helper on a flat array of hard labels: perfect
    predictions do not score 1, because the array is reshaped to one row
    and reduced by [argmax]. *)
Example classifier_flat_labels :
  Classifier.accuracy Z.gtb (Vec [0; 1; 1; 0]) (Vec [0; 1; 1; 0]) (Some false)
    = Ok (Classifier.Elems (Vec [0; 1; 1; 0]%Qc)) ∧
  Classification.accuracy Z.gtb id (Vec [0; 1; 1; 0]) (Vec [0; 1; 1; 0])
    = Ok (Some 1%Qc).
Proof.
  split; [reflexivity|]. vm_compute. do 2 f_equal; by apply Qc_is_canon.
Qed.

(** Labels given as a column (shape (n, 1)) are where the two helpers part:
    [Classifier.accuracy] flattens them, [Classification.accuracy] lets
    them broadcast against the predictions to an n by n comparison. *)
Example column_labels :
  Classifier.accuracy Z.gtb (Mat 2 [[1; 0]; [0; 1]]) (Mat 1 [[0]; [1]])
    (Some false)
    = Ok (Classifier.Elems (Vec [1; 1]%Qc)) ∧
  compare_mean (Vec [0; 1]) (Mat 1 [[0]; [1]])
    = Classification.accuracy Z.gtb id (Mat 2 [[1; 0]; [0; 1]])
        (Mat 1 [[0]; [1]]) ∧
  (amap to_float32 <$> eq_arrays (Vec [0; 1]) (Mat 1 [[0]; [1]]))
    = Ok (Mat 2 [[1; 0]; [0; 1]]%Qc).
Proof. repeat split. Qed.

End AccuracyFacts.

(** ** Mean imputation *)

Module PandasFacts.
Import Pandas.
Local Open Scope Qc_scope.

Lemma Qc_of_nat_S (n : nat) : Qc_of_nat (S n) = 1 + Qc_of_nat n.
Proof.
  unfold Qc_of_nat. rewrite Nat2Z.inj_succ, <- Z.add_1_l, Z2Qc_inj_add.
  by rewrite Z2Qc_inj_1.
Qed.

Lemma Qc_of_nat_nonzero (n : nat) : n ≠ 0%nat → Qc_of_nat n ≠ 0.
Proof.
  intros Hn E. unfold Qc_of_nat in E.
  rewrite <- Z2Qc_inj_0 in E. apply Z2Qc_inj in E. lia.
Qed.

Lemma mean_present (col : column) :
  present col ≠ [] →
  mean col = Some (sum (present col) / Qc_of_nat (length (present col))).
Proof. unfold mean. by destruct (present col). Qed.

Lemma mean_missing (col : column) : present col = [] → mean col = None.
Proof. unfold mean. by intros ->. Qed.

(** After filling with a value no entry is missing. *)
Lemma fillna_present (col : column) (v : Qc) :
  fillna col (Some v) = Some <$> (default v <$> col) ∧
  present (fillna col (Some v)) = default v <$> col.
Proof.
  unfold fillna, present. split.
  - rewrite <- list_fmap_compose. done.
  - induction col as [|x col IH]; [done|]. csimpl. by rewrite IH.
Qed.

Lemma length_present_le (col : column) :
  (length (present col) ≤ length col)%nat.
Proof.
  unfold present. induction col as [|[x|] col IH]; csimpl; lia.
Qed.

(** The sum of the filled column, against the sum of the entries that
    were there: every missing entry adds [v]. *)
Lemma sum_filled (col : column) (v : Qc) :
  sum (default v <$> col) + Qc_of_nat (length (present col)) * v
  = sum (present col) + Qc_of_nat (length col) * v.
Proof.
  unfold present. induction col as [|[x|] col IH]; csimpl.
  - done.
  - rewrite !Qc_of_nat_S.
    transitivity (x + v + (sum (default v <$> col)
                           + Qc_of_nat (length (omap id col)) * v)); [ring|].
    rewrite IH. ring.
  - rewrite Qc_of_nat_S.
    transitivity (v + (sum (default v <$> col)
                       + Qc_of_nat (length (omap id col)) * v)); [ring|].
    rewrite IH. ring.
Qed.

(** Filling a column with its own mean: the mean over all entries of the
    result is the mean of the entries that were not missing. *)
Lemma mean_filled (col : column) :
  present col ≠ [] →
  mean col = Some (sum (default (sum (present col)
                                 / Qc_of_nat (length (present col))) <$> col)
                   / Qc_of_nat (length col)).
Proof.
  intros Hp. rewrite mean_present by done. f_equal.
  set (v := sum (present col) / Qc_of_nat (length (present col))).
  assert (length (present col) ≠ 0%nat) as Hn by (by destruct (present col)).
  pose proof (length_present_le col) as Hle.
  pose proof (Qc_of_nat_nonzero _ Hn) as Hn'.
  assert (Qc_of_nat (length col) ≠ 0) as Hl' by (apply Qc_of_nat_nonzero; lia).
  pose proof (sum_filled col v) as Hs.
  assert (Qc_of_nat (length (present col)) * v = sum (present col)) as Hv.
  { unfold v. field. done. }
  rewrite Hv in Hs.
  assert (sum (default v <$> col) = Qc_of_nat (length col) * v) as ->.
  { apply (inj (λ q, q + sum (present col))). simpl.
    rewrite Hs. ring. }
  field. done.
Qed.

Lemma mean_fillna_mean (col : column) :
  mean (fillna col (mean col)) = mean col.
Proof.
  destruct (decide (present col = [])) as [Hp|Hp].
  - rewrite (mean_missing col Hp). simpl. by apply mean_missing.
  - rewrite (mean_present col Hp) at 1.
    destruct (fillna_present col
                (sum (present col) / Qc_of_nat (length (present col))))
      as [_ Hfill].
    assert (col ≠ []) as Hcol by (by destruct col).
    rewrite mean_present; rewrite Hfill; [|by destruct col].
    rewrite length_fmap. symmetry. by apply mean_filled.
Qed.

Lemma impute_lookup (df : gmap string column) (name : string) :
  impute df !! name = (λ col, fillna col (mean col)) <$> df !! name.
Proof.
  unfold impute, df_fillna, df_mean.
  rewrite map_lookup_imap, lookup_fmap.
  by destruct (df !! name).
Qed.

(** Over the whole data frame: the column means after the imputation are
    the column means before. *)
Lemma df_mean_impute (df : gmap string column) :
  df_mean (impute df) = df_mean df.
Proof.
  apply map_eq. intros name. unfold df_mean.
  rewrite !lookup_fmap, impute_lookup.
  destruct (df !! name) as [col|]; [|done]. simpl.
  by rewrite mean_fillna_mean.
Qed.

(** In exact arithmetic [inputs.fillna(inputs.mean())] replaces each
    column by the column filled with its own mean, and the mean of the
    filled column is the mean of the column it came from.  When the column has a non-missing
    entry, the filled column has no missing entry, so that this mean is
    the sum of all its entries over their number. *)
Theorem impute_keeps_mean (df : gmap string column) (name : string)
    (col : column) :
  df !! name = Some col →
  impute df !! name = Some (fillna col (mean col)) ∧
  mean (fillna col (mean col)) = mean col ∧
  (present col ≠ [] →
     ∃ vs : list Qc,
       fillna col (mean col) = Some <$> vs ∧
       length vs = length col ∧
       mean col = Some (sum vs / Qc_of_nat (length vs))).
Proof.
  intros Hcol. split; [by rewrite impute_lookup, Hcol|].
  split; [apply mean_fillna_mean|].
  intros Hp. pose proof (mean_filled col Hp) as Hm.
  rewrite (mean_present col Hp) in *.
  eexists. split; [apply fillna_present|].
  rewrite length_fmap. split; [done|]. exact Hm.
Qed.

(** The notebook's column: NaN, 2, 4, NaN has mean 3 and is filled to
    3, 2, 4, 3. *)
Example num_rooms :
  mean [None; Some (Qc_of_Z 2); Some (Qc_of_Z 4); None] = Some (Qc_of_Z 3) ∧
  fillna [None; Some (Qc_of_Z 2); Some (Qc_of_Z 4); None] (Some (Qc_of_Z 3))
  = [Some (Qc_of_Z 3); Some (Qc_of_Z 2); Some (Qc_of_Z 4); Some (Qc_of_Z 3)].
Proof.
  split; [|reflexivity].
  unfold mean. simpl. f_equal; by apply Qc_is_canon.
Qed.

End PandasFacts.

(** ** More on the device resolver and the trainer's device list *)

Module ResolverFacts.
Import Device.

#[local] Instance gpu_inj : Inj (=) (=) gpu.
Proof. by intros i j [= ->]. Qed.

(** The handles up to [min n a] are the first [n] of the handles up to [a]. *)
Lemma gpus_upto_take (n a : Z) :
  gpu <$> range (Z.min n a) = take (Z.to_nat n) (gpu <$> range a).
Proof.
  apply list_eq. intros i. apply option_eq. intros d.
  rewrite lookup_take_Some, !DeviceFacts.gpus_upto_lookup. split.
  - intros [-> ?]. repeat split; lia.
  - intros [[-> ?] ?]. split; [done|]. lia.
Qed.

(** X1: [try_gpu(i)] is the [i]-th entry of [try_all_gpus()] when there
    is one, and [cpu()] when the list is too short. *)
Theorem try_gpu_is_entry_or_cpu (rt : runtime) (i : nat) :
  try_gpu rt (Z.of_nat i) = default cpu (try_all_gpus rt !! i).
Proof.
  unfold try_gpu, try_all_gpus.
  destruct (num_gpus rt >=? Z.of_nat i + 1) eqn:E; rewrite Z.geb_leb in E.
  - apply Z.leb_le in E.
    assert ((gpu <$> range (num_gpus rt)) !! i = Some (gpu (Z.of_nat i))) as ->.
    { apply DeviceFacts.gpus_upto_lookup. split; [done|lia]. }
    done.
  - apply Z.leb_gt in E. rewrite lookup_ge_None_2; [done|].
    rewrite DeviceFacts.gpus_upto_length. lia.
Qed.

(** X2: the guard of [try_gpu] has no lower bound.  For an index that is
    not negative [try_gpu] never raises; for a negative index (and a
    count of GPUs that is not negative) the guard holds, [gpu(i)] is
    called, and the call raises RuntimeError: the fallback to the CPU is
    not taken. *)
Theorem try_gpu_negative_raises (rt : runtime) (i : Z) :
  (0 ≤ i → Checked.try_gpu rt i = Ok (try_gpu rt i)) ∧
  (i < 0 → 0 ≤ num_gpus rt → Checked.try_gpu rt i = Raise RuntimeError).
Proof.
  unfold Checked.try_gpu, Checked.gpu, try_gpu. split.
  - intros Hi. destruct (Z.ltb_spec i 0); [lia|].
    by destruct (num_gpus rt >=? i + 1).
  - intros Hi Hn. destruct (Z.ltb_spec i 0); [|lia].
    destruct (num_gpus rt >=? i + 1) eqn:E; [done|].
    rewrite Z.geb_leb in E. apply Z.leb_gt in E. lia.
Qed.

Lemma try_gpu_negative_raises_witness :
  Checked.try_gpu (Runtime 0) (-1) = Raise RuntimeError ∧
  Checked.try_gpu (Runtime 1) 0 = Ok (gpu 0).
Proof.
  split.
  - apply (try_gpu_negative_raises (Runtime 0) (-1)); simpl; lia.
  - apply (try_gpu_negative_raises (Runtime 1) 0). lia.
Defined.

(** X3: [try_all_gpus()] lists every available GPU once and nothing else. *)
Theorem try_all_gpus_exact (rt : runtime) :
  NoDup (try_all_gpus rt) ∧
  ∀ d, d ∈ try_all_gpus rt ↔ ∃ i, 0 ≤ i < num_gpus rt ∧ d = gpu i.
Proof.
  unfold try_all_gpus. split.
  - apply (NoDup_fmap_2 gpu), NoDup_seqZ.
  - intros d. rewrite list_elem_of_fmap. unfold range. split.
    + intros (i & -> & Hi). exists i. rewrite elem_of_seqZ in Hi. split; [lia|done].
    + intros (i & Hi & ->). exists i. rewrite elem_of_seqZ. split; [done|lia].
Qed.

(** X4: the trainer's device list is the first [num_gpus] entries of
    [try_all_gpus()]: all of them when more are asked for than exist, none
    for a request of zero or less; and its first device, the one
    [prepare_batch] and [prepare_model] use, is [try_gpu(0)]. *)
Theorem trainer_gpus_prefix (rt : runtime) (max_epochs : Z)
    (num_gpus gradient_clip_val : option Z) :
  Trainer.gpus (Trainer.init rt max_epochs num_gpus gradient_clip_val)
    = take (Z.to_nat (default 0 num_gpus)) (try_all_gpus rt) ∧
  (Device.num_gpus rt ≤ default 0 num_gpus →
     Trainer.gpus (Trainer.init rt max_epochs num_gpus gradient_clip_val)
       = try_all_gpus rt) ∧
  (default 0 num_gpus ≤ 0 →
     Trainer.gpus (Trainer.init rt max_epochs num_gpus gradient_clip_val) = []) ∧
  (∀ dev,
     head (Trainer.gpus (Trainer.init rt max_epochs num_gpus gradient_clip_val))
       = Some dev → dev = try_gpu rt 0).
Proof.
  unfold Trainer.init, try_all_gpus. simpl.
  rewrite gpus_upto_take. split; [done|]. split; [|split].
  - intros Hle. apply take_ge. rewrite DeviceFacts.gpus_upto_length. lia.
  - intros Hle. replace (Z.to_nat (default 0 num_gpus)) with 0%nat by lia. done.
  - intros dev. rewrite head_lookup, lookup_take_Some.
    intros [[-> Hpos]%DeviceFacts.gpus_upto_lookup _].
    unfold try_gpu. simpl in *.
    destruct (Device.num_gpus rt >=? 0 + 1) eqn:E; [done|].
    rewrite Z.geb_leb in E. apply Z.leb_gt in E. lia.
Qed.

Lemma trainer_gpus_prefix_witness :
  Trainer.gpus (Trainer.init (Runtime 2) 3 (Some 5) None)
  = try_all_gpus (Runtime 2).
Proof.
  apply (trainer_gpus_prefix (Runtime 2) 3 (Some 5) None). simpl. lia.
Defined.

End ResolverFacts.

(** ** More on batch preparation, and preparing the model *)

Module BatchFacts.
Import Device Store Trainer Model.

Section Batches.
Context {C : Type}.
Implicit Types (σ : gmap ref (tensor C)) (batch : list ref) (dev : device).

Lemma to_ok_inv (a a' : ref) dev σ σ' :
  to a dev σ = (Ok a', σ') →
  ∃ t, σ !! a = Some t ∧ σ ⊆ σ' ∧
       σ' !! a' = Some (Tensor dev (tensor_data t)).
Proof.
  intros Hto. destruct (σ !! a) as [t|] eqn:Ha.
  - destruct (StoreFacts.to_live a dev σ t Ha)
      as (a1 & σ1 & Hto1 & Hsub & Ha1 & _).
    rewrite Hto in Hto1. injection Hto1 as -> ->. by exists t.
  - unfold to in Hto. rewrite Ha in Hto. congruence.
Qed.

Lemma to_on_device (a : ref) dev σ :
  on_device σ dev a → to a dev σ = (Ok a, σ).
Proof.
  intros (t & Ha & Hd). unfold to. rewrite Ha. by rewrite decide_True.
Qed.

(** A batch that is on the device already comes back as it is, and
    nothing is allocated. *)
Lemma to_each_on_device dev batch σ :
  Forall (on_device σ dev) batch → to_each dev batch σ = (Ok batch, σ).
Proof.
  induction 1 as [|a rest Ha _ IH]; [done|].
  simpl. by rewrite (to_on_device a dev σ Ha), IH.
Qed.

(** Whatever the comprehension returns is on the device. *)
Lemma to_each_result_on_device dev batch batch' σ σ' :
  to_each dev batch σ = (Ok batch', σ') →
  σ ⊆ σ' ∧ Forall (on_device σ' dev) batch'.
Proof.
  revert batch' σ σ'. induction batch as [|a rest IH]; intros batch' σ σ' H.
  - injection H as <- <-. by split.
  - simpl in H. destruct (to a dev σ) as [[a1|e] σ1] eqn:Hto; [|done].
    destruct (to_each dev rest σ1) as [[rest'|e] σ2] eqn:Heach; [|done].
    injection H as <- <-.
    destruct (to_ok_inv _ _ _ _ _ Hto) as (t & _ & Hsub1 & Ha1).
    destruct (IH _ _ _ Heach) as [Hsub2 Hrest]. split.
    + by transitivity σ1.
    + constructor; [|done]. exists (Tensor dev (tensor_data t)).
      split; [by apply (lookup_weaken σ1)|done].
Qed.

Lemma needs_copy_weaken (σ0 σ : gmap ref (tensor C)) dev (a : ref) :
  σ0 ⊆ σ → is_Some (σ0 !! a) → needs_copy σ dev a = needs_copy σ0 dev a.
Proof.
  intros Hsub [t Ht]. unfold needs_copy.
  by rewrite Ht, (lookup_weaken _ _ _ _ Ht Hsub).
Qed.

Lemma to_size (a a' : ref) dev σ σ' :
  to a dev σ = (Ok a', σ') →
  size σ' = (size σ + (if needs_copy σ dev a then 1 else 0))%nat.
Proof.
  unfold to, needs_copy. destruct (σ !! a) as [t|]; [|done].
  destruct (decide (tensor_device t = dev)) as [Hd|Hd].
  - intros [= <- <-]. rewrite bool_decide_eq_false_2 by auto. lia.
  - simpl. intros [= <- <-]. rewrite bool_decide_eq_true_2 by done.
    rewrite map_size_insert_None by apply StoreFacts.fresh_unused. lia.
Qed.

Lemma to_each_size dev batch batch' (σ0 σ σ' : gmap ref (tensor C)) :
  σ0 ⊆ σ →
  Forall (λ a, is_Some (σ0 !! a)) batch →
  to_each dev batch σ = (Ok batch', σ') →
  size σ' = (size σ + length (filter (λ a, needs_copy σ0 dev a) batch))%nat.
Proof.
  revert batch' σ σ'.
  induction batch as [|a rest IH]; intros batch' σ σ' Hsub Hlive H.
  - injection H as <- <-. simpl. lia.
  - apply Forall_cons in Hlive as [Ha Hrest].
    simpl in H. destruct (to a dev σ) as [[a1|e] σ1] eqn:Hto; [|done].
    destruct (to_each dev rest σ1) as [[rest'|e] σ2] eqn:Heach; [|done].
    injection H as <- <-.
    destruct (to_ok_inv _ _ _ _ _ Hto) as (t & _ & Hsub1 & _).
    rewrite (IH _ _ _ (transitivity Hsub Hsub1) Hrest Heach).
    rewrite (to_size _ _ _ _ _ Hto), (needs_copy_weaken σ0 σ dev a Hsub Ha).
    rewrite filter_cons. destruct (needs_copy σ0 dev a); simpl; lia.
Qed.

(** X5: preparing a prepared batch again changes nothing: the second call
    returns the same references and leaves the store as it is. *)
Theorem prepare_batch_idempotent (self : Trainer.trainer) batch batch' σ σ' :
  prepare_batch self batch σ = (Ok batch', σ') →
  prepare_batch self batch' σ' = (Ok batch', σ').
Proof.
  unfold prepare_batch. destruct (gpus self) as [|dev devs].
  - by intros [= <- <-].
  - intros H. apply to_each_on_device.
    by apply (to_each_result_on_device dev batch batch' σ σ').
Qed.

(** X6: with a configured device, [prepare_batch] allocates one array for
    every element of the batch (counted with repetitions) that is not on
    the first device, and no other; a batch that is on that device is
    returned as it is. *)
Theorem prepare_batch_allocations (self : Trainer.trainer) dev batch σ :
  head (gpus self) = Some dev →
  Forall (λ a, is_Some (σ !! a)) batch →
  ∃ batch' σ', prepare_batch self batch σ = (Ok batch', σ') ∧
    size σ' = (size σ + length (filter (λ a, needs_copy σ dev a) batch))%nat ∧
    (Forall (on_device σ dev) batch → batch' = batch ∧ σ' = σ).
Proof.
  intros Hdev Hlive. unfold prepare_batch.
  destruct (gpus self) as [|dev' devs]; [done|]. injection Hdev as ->.
  destruct (TrainerFacts.to_each_live dev batch σ σ (reflexivity _) Hlive)
    as (batch' & σ' & Heach & _).
  exists batch', σ'. split; [done|]. split.
  - by apply (to_each_size dev batch batch' σ σ σ').
  - intros Hon. rewrite (to_each_on_device dev batch σ Hon) in Heach.
    by injection Heach as <- <-.
Qed.

(** [model.to(dev)]: the parameters are relocated where they are, the other
    arrays are left alone. *)
Lemma module_to_lookup (params : list ref) dev σ (r : ref) :
  module_to params dev σ !! r
  = if decide (r ∈ params)
    then (λ t, Tensor dev (tensor_data t)) <$> σ !! r
    else σ !! r.
Proof.
  induction params as [|p params IH].
  - rewrite decide_False; [done|]. apply not_elem_of_nil.
  - change (module_to (p :: params) dev σ)
      with (alter (λ t, Tensor dev (tensor_data t)) p (module_to params dev σ)).
    rewrite lookup_alter. destruct (decide (p = r)) as [->|Hne].
    + rewrite decide_True by left. rewrite IH.
      destruct (decide (r ∈ params)); [|done].
      by destruct (σ !! r).
    + rewrite IH. destruct (decide (r ∈ params)) as [Hin|Hin].
      * rewrite decide_True; [done|]. by right.
      * rewrite decide_False; [done|].
        intros [?|?]%elem_of_cons; congruence.
Qed.

Lemma module_to_live (params : list ref) dev σ (r : ref) :
  is_Some (σ !! r) → is_Some (module_to params dev σ !! r).
Proof.
  intros [t Ht]. rewrite module_to_lookup, Ht.
  destruct (decide (r ∈ params)); by eexists.
Qed.

Lemma module_to_on_device (params : list ref) dev σ (p : ref) :
  p ∈ params → is_Some (σ !! p) → on_device (module_to params dev σ) dev p.
Proof.
  intros Hin [t Ht]. exists (Tensor dev (tensor_data t)).
  rewrite module_to_lookup, decide_True, Ht by done. done.
Qed.

(** X7: with a configured device, after [prepare_model] and
    [prepare_batch] the parameters of the model and the elements of the
    batch are on the trainer's first device, so that combining a parameter
    with a batch element does not raise.  The model keeps its parameters
    and knows its trainer. *)
Theorem prepare_model_then_batch (op : C → C → C) (self : Trainer.trainer)
    (m : model) dev batch σ :
  head (gpus self) = Some dev →
  Forall (λ a, is_Some (σ !! a)) (parameters m) →
  Forall (λ a, is_Some (σ !! a)) batch →
  ∃ m' σ1 batch' σ2,
    prepare_model self m σ = (m', σ1) ∧
    prepare_batch self batch σ1 = (Ok batch', σ2) ∧
    parameters m' = parameters m ∧
    Model.trainer m' = Some self ∧
    Forall (on_device σ2 dev) (parameters m') ∧
    Forall (on_device σ2 dev) batch' ∧
    ∀ p b, p ∈ parameters m' → b ∈ batch' →
      ∃ r σ3, combine op p b σ2 = (Ok r, σ3).
Proof.
  intros Hdev Hparams Hlive. unfold prepare_model, prepare_batch.
  destruct (gpus self) as [|dev' devs]; [done|]. injection Hdev as ->. simpl.
  set (σ1 := module_to (parameters m) dev σ).
  assert (Forall (λ a, is_Some (σ1 !! a)) batch) as Hlive1.
  { eapply Forall_impl; [exact Hlive|]. intros a. apply module_to_live. }
  destruct (TrainerFacts.to_each_live dev batch σ1 σ1 (reflexivity _) Hlive1)
    as (batch' & σ2 & Heach & _).
  destruct (to_each_result_on_device _ _ _ _ _ Heach) as [Hsub Hbatch'].
  assert (Forall (on_device σ2 dev) (parameters m)) as Hp.
  { apply Forall_forall. intros p Hp.
    destruct (module_to_on_device (parameters m) dev σ p Hp) as (t & Ht & Hd).
    { by apply (proj1 (Forall_forall _ _) Hparams). }
    exists t. split; [|done]. by apply (lookup_weaken σ1). }
  eexists _, σ1, batch', σ2. repeat split; try done.
  intros p b Hin Hb.
  destruct (proj1 (Forall_forall _ _) Hp p Hin) as (tp & Htp & Hdp).
  destruct (proj1 (Forall_forall _ _) Hbatch' b Hb) as (tb & Htb & Hdb).
  unfold combine. rewrite Htp, Htb, decide_True by congruence.
  simpl. by eexists _, _.
Qed.

End Batches.

Lemma prepare_batch_idempotent_witness :
  ∃ batch' σ',
    prepare_batch (init (Runtime 1) 3 (Some 1) None) [1%positive]
      ({[ 1%positive := Tensor cpu 7 ]} : gmap ref (tensor Z))
      = (Ok batch', σ') ∧
    prepare_batch (init (Runtime 1) 3 (Some 1) None) batch' σ'
      = (Ok batch', σ').
Proof.
  eexists _, _. split; [vm_compute; reflexivity|].
  apply (prepare_batch_idempotent (init (Runtime 1) 3 (Some 1) None)
           [1%positive] _ ({[ 1%positive := Tensor cpu 7 ]})).
  vm_compute. reflexivity.
Defined.

Lemma prepare_batch_allocations_witness :
  ∃ batch' σ',
    prepare_batch (init (Runtime 1) 3 (Some 1) None)
      [1%positive; 2%positive; 1%positive]
      ({[ 1%positive := Tensor cpu 7; 2%positive := Tensor (gpu 0) 8 ]}
         : gmap ref (tensor Z))
      = (Ok batch', σ') ∧
    size σ' = 4%nat.
Proof.
  destruct (prepare_batch_allocations (init (Runtime 1) 3 (Some 1) None)
              (gpu 0) [1%positive; 2%positive; 1%positive]
              ({[ 1%positive := Tensor cpu 7; 2%positive := Tensor (gpu 0) 8 ]}
                 : gmap ref (tensor Z)))
    as (batch' & σ' & H & Hsize & _).
  - reflexivity.
  - repeat constructor; by eexists.
  - exists batch', σ'. split; [done|]. rewrite Hsize. reflexivity.
Defined.

Lemma prepare_model_then_batch_witness :
  ∃ m' σ1 batch' σ2,
    prepare_model (init (Runtime 1) 3 (Some 1) None)
      (Build_model [1%positive] None None)
      ({[ 1%positive := Tensor cpu 7; 2%positive := Tensor cpu 8 ]}
         : gmap ref (tensor Z)) = (m', σ1) ∧
    prepare_batch (init (Runtime 1) 3 (Some 1) None) [2%positive] σ1
      = (Ok batch', σ2) ∧
    ∀ p b, p ∈ parameters m' → b ∈ batch' →
      ∃ r σ3, combine Z.add p b σ2 = (Ok r, σ3).
Proof.
  destruct (prepare_model_then_batch Z.add (init (Runtime 1) 3 (Some 1) None)
              (Build_model [1%positive] None None) (gpu 0) [2%positive]
              ({[ 1%positive := Tensor cpu 7; 2%positive := Tensor cpu 8 ]}
                 : gmap ref (tensor Z)))
    as (m' & σ1 & batch' & σ2 & H1 & H2 & _ & _ & _ & _ & H3).
  - reflexivity.
  - repeat constructor; by eexists.
  - repeat constructor; by eexists.
  - by exists m', σ1, batch', σ2.
Defined.

End BatchFacts.

(** ** More on the accuracy helpers *)

Module ScoreFacts.
Import Array ArrayFacts AccuracyFacts.
Local Open Scope Qc_scope.

Lemma flatten_amap {A B} (f : A → B) (t : ndarray A) :
  flatten (amap f t) = f <$> flatten t.
Proof.
  destruct t as [xs|c rows]; [done|].
  unfold amap, flatten.
  induction rows as [|r rows IH]; [done|].
  csimpl. rewrite fmap_app. by f_equal.
Qed.

Lemma Qc_of_nat_0 : Qc_of_nat 0 = 0.
Proof. apply Z2Qc_inj_0. Qed.

Lemma Qc_of_nat_le (n m : nat) : (n ≤ m)%nat → Qc_of_nat n ≤ Qc_of_nat m.
Proof.
  intros H. unfold Qc_of_nat. apply (proj1 (Z2Qc_inj_le _ _)).
  by apply Nat2Z.inj_le.
Qed.

Lemma Qc_of_nat_inj (n m : nat) : Qc_of_nat n = Qc_of_nat m → n = m.
Proof. unfold Qc_of_nat. intros H%Z2Qc_inj. by apply Nat2Z.inj. Qed.

Lemma Qc_of_nat_add (n m : nat) :
  Qc_of_nat (n + m) = Qc_of_nat n + Qc_of_nat m.
Proof. unfold Qc_of_nat. by rewrite Nat2Z.inj_add, Z2Qc_inj_add. Qed.

Lemma Qc_of_nat_pos (n : nat) : (0 < n)%nat → 0 < Qc_of_nat n.
Proof.
  intros H. unfold Qc_of_nat. rewrite <- Z2Qc_inj_0.
  apply (proj1 (Z2Qc_inj_lt _ _)). by apply (Nat2Z.inj_lt 0).
Qed.

(** The sum of zeros and ones counts the ones. *)
Lemma sum_to_float32 (bs : list bool) :
  sum (to_float32 <$> bs) = Qc_of_nat (length (filter Is_true bs)).
Proof.
  induction bs as [|[|] bs IH]; [symmetry; apply Qc_of_nat_0| |].
  - rewrite filter_cons_True by done.
    change (sum (to_float32 <$> true :: bs))
      with (1 + sum (to_float32 <$> bs)).
    change (length (true :: filter Is_true bs))
      with (S (length (filter Is_true bs))).
    by rewrite PandasFacts.Qc_of_nat_S, IH.
  - rewrite filter_cons_False by auto.
    change (sum (to_float32 <$> false :: bs))
      with (0 + sum (to_float32 <$> bs)).
    rewrite IH. ring.
Qed.

Lemma sum_app (xs ys : list Qc) : sum (xs ++ ys) = sum xs + sum ys.
Proof.
  induction xs as [|x xs IH]; simpl; [ring|]. rewrite IH. ring.
Qed.

Lemma ratio_unit (k n : nat) :
  (k ≤ n)%nat → (0 < n)%nat →
  0 ≤ Qc_of_nat k / Qc_of_nat n ∧ Qc_of_nat k / Qc_of_nat n ≤ 1.
Proof.
  intros Hk Hn. pose proof (Qc_of_nat_pos n Hn) as Hpos.
  pose proof (Qcinv_pos _ Hpos) as Hinv.
  unfold Qcdiv. split.
  - apply Qcmult_nonneg_nonneg; [|by apply Qclt_le_weak].
    rewrite <- Qc_of_nat_0. apply Qc_of_nat_le. lia.
  - rewrite <- (Qcmult_inv_r (Qc_of_nat n)).
    + apply Qcmult_le_mono_nonneg_r; [by apply Qclt_le_weak|].
      by apply Qc_of_nat_le.
    + apply PandasFacts.Qc_of_nat_nonzero. by apply Nat.neq_0_lt_0.
Qed.


Lemma ratio_zero (k n : nat) :
  (0 < n)%nat → Qc_of_nat k / Qc_of_nat n = 0 ↔ k = 0%nat.
Proof.
  intros Hn. pose proof (PandasFacts.Qc_of_nat_nonzero n ltac:(lia)) as Hnz.
  split.
  - intros H. apply Qc_of_nat_inj. rewrite Qc_of_nat_0.
    transitivity (Qc_of_nat k / Qc_of_nat n * Qc_of_nat n); [field; done|].
    rewrite H. ring.
  - intros ->. rewrite Qc_of_nat_0. field. done.
Qed.

(** The mean of an array of zeros and ones: the number of ones over the
    number of entries, when there are entries. *)
Lemma reduce_mean_count (t : ndarray bool) :
  reduce_mean (amap to_float32 t)
  = if decide (flatten t = []) then None
    else Some (Qc_of_nat (length (filter Is_true (flatten t)))
               / Qc_of_nat (length (flatten t))).
Proof.
  unfold reduce_mean. rewrite flatten_amap.
  destruct (flatten t) as [|b bs] eqn:E; [done|].
  rewrite decide_False by done.
  change (to_float32 <$> b :: bs) with (to_float32 b :: (to_float32 <$> bs)).
  cbv iota. f_equal. f_equal.
  - apply (sum_to_float32 (b :: bs)).
  - by rewrite <- (length_fmap to_float32 (b :: bs)).
Qed.

Lemma reduce_mean_unit (t : ndarray bool) (q : Qc) :
  reduce_mean (amap to_float32 t) = Some q → 0 ≤ q ∧ q ≤ 1.
Proof.
  rewrite reduce_mean_count. case_decide as Ht; [done|].
  intros [= <-]. apply ratio_unit.
  - apply length_filter.
  - destruct (flatten t); [done|simpl; lia].
Qed.

Section Ranges.
Context {score : Type} (gtb : score → score → bool) (cast : score → Z).

(** X8: whenever [Classification.accuracy] returns a number, it lies
    between 0 and 1, whatever the shapes of its arguments. *)
Theorem classification_accuracy_unit (y_hat : ndarray score) (y : ndarray Z)
    (q : Qc) :
  Classification.accuracy gtb cast y_hat y = Ok (Some q) → 0 ≤ q ∧ q ≤ 1.
Proof.
  unfold Classification.accuracy.
  assert (∀ p : ndarray Z,
            compare_mean p y = Ok (Some q) → 0 ≤ q ∧ q ≤ 1) as Hcmp.
  { intros p. unfold compare_mean.
    destruct (eq_arrays p y) as [cmp|e]; [|done]. simpl.
    intros [= H]. by apply (reduce_mean_unit cmp). }
  destruct (_ && _).
  - destruct (argmax_axis1 gtb y_hat) as [am|e]; [|done]. apply Hcmp.
  - apply Hcmp.
Qed.

(** X9: whenever [Classifier.accuracy] returns, the averaged value lies
    between 0 and 1 and the entries of the unaveraged array are 0 or 1. *)
Theorem classifier_accuracy_unit (Y_hat : ndarray score) (Y : ndarray Z)
    (averaged : option bool) (out : Classifier.output) :
  Classifier.accuracy gtb Y_hat Y averaged = Ok out →
  match out with
  | Classifier.Scalar (Some q) => 0 ≤ q ∧ q ≤ 1
  | Classifier.Scalar None => True
  | Classifier.Elems t => Forall (λ x, x = 0 ∨ x = 1) (flatten t)
  end.
Proof.
  unfold Classifier.accuracy.
  destruct (reshape_rows _ _) as [Y_hat'|e]; [|done]. simpl.
  destruct (argmax_axis1 gtb Y_hat') as [am|e]; [|done]. simpl.
  destruct (eq_arrays _ _) as [cmp|e]; [|done]. simpl.
  destruct (default true averaged); intros [= <-].
  - destruct (reduce_mean _) as [q|] eqn:Hq; [|done].
    by apply (reduce_mean_unit cmp).
  - rewrite flatten_amap. apply Forall_fmap, Forall_forall.
    intros [|] _; simpl; auto.
Qed.

End Ranges.

Lemma classification_accuracy_unit_witness :
  ∃ q, Classification.accuracy Z.gtb id Examples.scores Examples.labels
       = Ok (Some q) ∧ q ≤ 1.
Proof.
  eexists. split; [vm_compute; reflexivity|].
  apply (classification_accuracy_unit Z.gtb id Examples.scores Examples.labels).
  vm_compute. reflexivity.
Defined.

Lemma classifier_accuracy_unit_witness :
  ∃ t, Classifier.accuracy Z.gtb Examples.scores Examples.labels (Some false)
       = Ok (Classifier.Elems t) ∧
       Forall (λ x, x = 0 ∨ x = 1) (flatten t).
Proof.
  eexists. split; [vm_compute; reflexivity|].
  apply (classifier_accuracy_unit Z.gtb Examples.scores Examples.labels
           (Some false) (Classifier.Elems _)).
  vm_compute. reflexivity.
Defined.


Lemma count_none (bs : list bool) :
  length (filter Is_true bs) = 0%nat ↔ Forall (λ b, b = false) bs.
Proof.
  induction bs as [|[|] bs IH].
  - by split.
  - rewrite filter_cons_True by done. simpl. split; [done|].
    by intros [[=] _]%Forall_cons.
  - rewrite filter_cons_False by auto. rewrite Forall_cons, IH.
    split; [by split|by intros [_ ?]].
Qed.


Lemma zip_eqb_none (ps ys : list Z) :
  length ps = length ys →
  Forall (λ b, b = false) (zip_with Z.eqb ps ys) ↔ Forall2 (≠) ps ys.
Proof.
  revert ys. induction ps as [|p ps IH]; intros [|y ys] Hlen; try done.
  simpl in *. rewrite Forall_cons, Forall2_cons, IH by lia.
  by rewrite Z.eqb_neq.
Qed.

Lemma mean_correct (ps ys : list Z) :
  length ps = length ys → ps ≠ [] →
  reduce_mean (Vec (correctness ps ys))
  = Some (Qc_of_nat (length (filter Is_true (zip_with Z.eqb ps ys)))
          / Qc_of_nat (length ps)).
Proof.
  intros Hlen Hps.
  change (Vec (correctness ps ys))
    with (amap to_float32 (Vec (zip_with Z.eqb ps ys))).
  rewrite reduce_mean_count.
  change (flatten (Vec (zip_with Z.eqb ps ys))) with (zip_with Z.eqb ps ys).
  rewrite decide_False.
  - by rewrite (length_zip_with_l_eq _ ps ys Hlen).
  - intros E. apply (f_equal length) in E.
    rewrite (length_zip_with_l_eq _ ps ys Hlen) in E. by destruct ps.
Qed.



Lemma bdim_ok (n m : nat) :
  n = m ∨ n = 1%nat ∨ m = 1%nat →
  bdim n m = Ok (if decide (n = 1%nat) then m else n).
Proof.
  intros H. unfold bdim.
  destruct (Nat.eqb_spec n m) as [->|Hnm]; [by case_decide; subst|].
  destruct (Nat.eqb_spec n 1) as [->|Hn]; [done|].
  destruct (Nat.eqb_spec m 1) as [->|Hm]; [by rewrite decide_False|].
  by destruct H as [?|[?|?]].
Qed.

Lemma bdim_raise (n m : nat) :
  n ≠ m → n ≠ 1%nat → m ≠ 1%nat → bdim n m = Raise RuntimeError.
Proof.
  intros Hnm Hn Hm. unfold bdim.
  destruct (Nat.eqb_spec n m); [done|].
  destruct (Nat.eqb_spec n 1); [done|].
  by destruct (Nat.eqb_spec m 1).
Qed.

Section Values.
Context {score : Type} (gtb : score → score → bool) (cast : score → Z).

Lemma length_hard_preds (rows : list (list score)) :
  length (hard_preds gtb rows) = length rows.
Proof. unfold hard_preds. by rewrite !length_fmap. Qed.

(** On a score matrix with more than one column, both helpers go through
    the comparison of the hard predictions with the labels. *)
Lemma helpers_compare (c : nat) (rows : list (list score)) (ys : list Z)
    (averaged : option bool) :
  wf (Mat c rows) → (1 < c)%nat →
  Classification.accuracy gtb cast (Mat c rows) (Vec ys)
    = compare_mean (Vec (hard_preds gtb rows)) (Vec ys) ∧
  Classifier.accuracy gtb (Mat c rows) (Vec ys) averaged
    = cmp ← eq_arrays (Vec (hard_preds gtb rows)) (Vec ys);
      Ok (if default true averaged
          then Classifier.Scalar (reduce_mean (amap to_float32 cmp))
          else Classifier.Elems (amap to_float32 cmp)).
Proof.
  intros Hwf Hc. split.
  - by apply classification_multiclass.
  - rewrite classifier_matrix by (done || lia). done.
Qed.

(** With one label per row and at least one row, both return the number
    of right predictions over the number of rows. *)
Lemma helpers_value (c : nat) (rows : list (list score)) (ys : list Z) :
  wf (Mat c rows) → (1 < c)%nat → length ys = length rows → rows ≠ [] →
  Classification.accuracy gtb cast (Mat c rows) (Vec ys)
    = Ok (Some (Qc_of_nat (length (filter Is_true
                             (zip_with Z.eqb (hard_preds gtb rows) ys)))
                / Qc_of_nat (length rows))) ∧
  Classifier.accuracy gtb (Mat c rows) (Vec ys) None
    = Ok (Classifier.Scalar
            (Some (Qc_of_nat (length (filter Is_true
                                (zip_with Z.eqb (hard_preds gtb rows) ys)))
                   / Qc_of_nat (length rows)))).
Proof.
  intros Hwf Hc Hlen Hrows.
  assert (length (hard_preds gtb rows) = length ys) as Hp
    by (by rewrite length_hard_preds).
  assert (hard_preds gtb rows ≠ []) as Hne.
  { intros E. apply (f_equal length) in E.
    rewrite length_hard_preds in E. by destruct rows. }
  destruct (helpers_compare c rows ys None Hwf Hc) as [-> ->].
  rewrite compare_mean_vec, eq_arrays_vec by done. simpl.
  change (Vec (to_float32 <$> zip_with Z.eqb (hard_preds gtb rows) ys))
    with (Vec (correctness (hard_preds gtb rows) ys)).
  rewrite mean_correct by done. by rewrite length_hard_preds.
Qed.


(** X11: the one failure of the helpers on a score matrix with flat
    labels is the count of labels: they return when there are as many
    labels as rows, or one row, or one label (which is then compared with
    every prediction), and raise RuntimeError otherwise. *)
Theorem accuracy_label_count (c : nat) (rows : list (list score))
    (ys : list Z) (averaged : option bool) :
  wf (Mat c rows) → (1 < c)%nat →
  (length rows = length ys ∨ length rows = 1%nat ∨ length ys = 1%nat →
     (∃ q, Classification.accuracy gtb cast (Mat c rows) (Vec ys) = Ok q) ∧
     (∃ out, Classifier.accuracy gtb (Mat c rows) (Vec ys) averaged = Ok out)) ∧
  (length rows ≠ length ys → length rows ≠ 1%nat → length ys ≠ 1%nat →
     Classification.accuracy gtb cast (Mat c rows) (Vec ys)
       = Raise RuntimeError ∧
     Classifier.accuracy gtb (Mat c rows) (Vec ys) averaged
       = Raise RuntimeError).
Proof.
  intros Hwf Hc.
  destruct (helpers_compare c rows ys averaged Hwf Hc) as [-> ->].
  unfold compare_mean, eq_arrays, elementwise, bcast.
  rewrite length_hard_preds. split.
  - intros H. rewrite (bdim_ok _ _ H). simpl. split; by eexists.
  - intros H1 H2 H3. by rewrite (bdim_raise _ _ H1 H2 H3).
Qed.

(** X12: with one label per row, the averaged accuracy is not a number
    exactly for the batch without rows; the unaveraged result is then the
    empty array. *)
Theorem accuracy_empty_batch (c : nat) (rows : list (list score))
    (ys : list Z) :
  wf (Mat c rows) → (1 < c)%nat → length ys = length rows →
  (Classification.accuracy gtb cast (Mat c rows) (Vec ys) = Ok None
     ↔ rows = []) ∧
  (Classifier.accuracy gtb (Mat c rows) (Vec ys) None
     = Ok (Classifier.Scalar None) ↔ rows = []) ∧
  (rows = [] →
     Classifier.accuracy gtb (Mat c rows) (Vec ys) (Some false)
       = Ok (Classifier.Elems (Vec []))).
Proof.
  intros Hwf Hc Hlen. destruct rows as [|r rows].
  - destruct ys; [|done].
    destruct (helpers_compare c [] [] None Hwf Hc) as [-> ->].
    destruct (helpers_compare c [] [] (Some false) Hwf Hc) as [_ ->].
    by repeat split.
  - destruct (helpers_value c (r :: rows) ys Hwf Hc Hlen) as [-> ->]; [done|].
    by repeat split.
Qed.

End Values.


Lemma accuracy_label_count_witness :
  Classifier.accuracy Z.gtb Examples.scores (Vec [0; 1; 1]%Z) None
  = Raise RuntimeError.
Proof.
  apply (accuracy_label_count Z.gtb id 2
           [[3; 1]; [0; 2]; [5; 5]; [1; 0]]%Z [0; 1; 1]%Z None).
  - repeat constructor.
  - apply Nat.lt_1_2.
  - simpl. discriminate.
  - simpl. discriminate.
  - simpl. discriminate.
Defined.

Lemma accuracy_empty_batch_witness :
  Classification.accuracy Z.gtb id (Mat 2 []) (Vec []) = Ok None.
Proof.
  apply (accuracy_empty_batch Z.gtb id 2 [] []).
  - constructor.
  - apply Nat.lt_1_2.
  - reflexivity.
  - reflexivity.
Defined.

Lemma eq_arrays_single (k : Z) (ys : list Z) :
  eq_arrays (Vec [k]) (Vec ys) = Ok (Vec (Z.eqb k <$> ys)).
Proof.
  unfold eq_arrays, elementwise, bcast.
  rewrite bdim_ok by (right; by left). simpl.
  rewrite stretch_same, zip_with_replicate_l by done. done.
Qed.

Section Batches.
Context {score : Type} (gtb : score → score → bool) (cast : score → Z).

Lemma hard_preds_app (rows1 rows2 : list (list score)) :
  hard_preds gtb (rows1 ++ rows2)
  = hard_preds gtb rows1 ++ hard_preds gtb rows2.
Proof. unfold hard_preds. by rewrite !fmap_app. Qed.

(** X13: the unaveraged result of [Classifier.accuracy] on two batches
    put together is the result on the first followed by the result on the
    second: a row is scored the same whatever batch it is in. *)
Theorem correctness_over_batches (c : nat) (rows1 rows2 : list (list score))
    (ys1 ys2 : list Z) :
  wf (Mat c rows1) → wf (Mat c rows2) → c ≠ 0%nat →
  length ys1 = length rows1 → length ys2 = length rows2 →
  ∃ e1 e2 : list Qc,
    Classifier.accuracy gtb (Mat c rows1) (Vec ys1) (Some false)
      = Ok (Classifier.Elems (Vec e1)) ∧
    Classifier.accuracy gtb (Mat c rows2) (Vec ys2) (Some false)
      = Ok (Classifier.Elems (Vec e2)) ∧
    Classifier.accuracy gtb (Mat c (rows1 ++ rows2)) (Vec (ys1 ++ ys2))
      (Some false)
      = Ok (Classifier.Elems (Vec (e1 ++ e2))) ∧
    length e1 = length rows1 ∧ length e2 = length rows2.
Proof.
  intros Hwf1 Hwf2 Hc Hlen1 Hlen2.
  assert (wf (Mat c (rows1 ++ rows2))) as Hwf by (by apply Forall_app).
  assert (length (hard_preds gtb rows1) = length ys1) as Hp1
    by (by rewrite length_hard_preds).
  assert (length (hard_preds gtb rows2) = length ys2) as Hp2
    by (by rewrite length_hard_preds).
  exists (correctness (hard_preds gtb rows1) ys1),
         (correctness (hard_preds gtb rows2) ys2).
  rewrite !classifier_matrix by done.
  change (flatten (Vec ys1)) with ys1. change (flatten (Vec ys2)) with ys2.
  change (flatten (Vec (ys1 ++ ys2))) with (ys1 ++ ys2).
  rewrite !eq_arrays_vec
    by (rewrite ?hard_preds_app, ?length_app; congruence).
  unfold correctness. split; [done|]. split; [done|]. split.
  - simpl. by rewrite hard_preds_app, zip_with_app, fmap_app.
  - by rewrite !length_fmap, !length_zip_with_l_eq, !length_hard_preds.
Qed.

End Batches.

Lemma correctness_over_batches_witness :
  ∃ e1 e2 : list Qc,
    Classifier.accuracy Z.gtb (Mat 2 [[3; 1]; [0; 2]]%Z) (Vec [0; 1]%Z)
      (Some false) = Ok (Classifier.Elems (Vec e1)) ∧
    Classifier.accuracy Z.gtb (Mat 2 [[5; 5]; [1; 0]]%Z) (Vec [1; 0]%Z)
      (Some false) = Ok (Classifier.Elems (Vec e2)) ∧
    Classifier.accuracy Z.gtb Examples.scores Examples.labels (Some false)
      = Ok (Classifier.Elems (Vec (e1 ++ e2))).
Proof.
  destruct (correctness_over_batches Z.gtb 2 [[3; 1]; [0; 2]]%Z
              [[5; 5]; [1; 0]]%Z [0; 1]%Z [1; 0]%Z)
    as (e1 & e2 & H1 & H2 & H3 & _);
    try done; try (repeat constructor).
  by exists e1, e2.
Defined.

Section Indices.
Context {score : Type} (gtb : score → score → bool) (cast : score → Z).

Lemma argmax_from_lt (l : list score) (best : score) (bi i : nat) :
  (bi < i)%nat → (argmax_from gtb best bi i l < i + length l)%nat.
Proof.
  revert best bi i. induction l as [|x l IH]; intros best bi i Hbi; simpl.
  - by rewrite Nat.add_0_r.
  - rewrite <- Nat.add_succ_comm.
    destruct (gtb x best); apply IH.
    + apply Nat.lt_succ_diag_r.
    + by apply Nat.lt_lt_succ_r.
Qed.

Lemma argmax_row_lt (l : list score) :
  l ≠ [] → (argmax_row gtb l < length l)%nat.
Proof.
  destruct l as [|x l]; [done|]. intros _.
  apply (argmax_from_lt l x 0 1), Nat.lt_0_1.
Qed.

Lemma hard_preds_range (c : nat) (rows : list (list score)) :
  wf (Mat c rows) → (0 < c)%nat →
  Forall (λ p, (0 ≤ p)%Z ∧ (p < Z.of_nat c)%Z) (hard_preds gtb rows).
Proof.
  intros Hwf Hc. unfold hard_preds. rewrite <- list_fmap_compose.
  apply Forall_fmap. eapply Forall_impl; [exact Hwf|].
  intros r Hr. simpl. split; [apply Nat2Z.is_nonneg|].
  apply (proj1 (Nat2Z.inj_lt _ _)). rewrite <- Hr.
  apply argmax_row_lt. intros ->. simpl in Hr. subst c.
  by apply Nat.lt_irrefl in Hc.
Qed.

(** X14: every hard prediction is the index of a column; so when all the
    labels lie outside the columns, no prediction is counted right and the
    accuracy is 0. *)
Theorem labels_out_of_range (c : nat) (rows : list (list score))
    (ys : list Z) :
  wf (Mat c rows) → (1 < c)%nat → length ys = length rows → rows ≠ [] →
  Forall (λ y, (y < 0)%Z ∨ (Z.of_nat c ≤ y)%Z) ys →
  Forall (λ p, (0 ≤ p)%Z ∧ (p < Z.of_nat c)%Z) (hard_preds gtb rows) ∧
  Classification.accuracy gtb cast (Mat c rows) (Vec ys) = Ok (Some 0) ∧
  Classifier.accuracy gtb (Mat c rows) (Vec ys) None
    = Ok (Classifier.Scalar (Some 0)).
Proof.
  intros Hwf Hc Hlen Hne Hys.
  assert (0 < c)%nat as Hc0 by (by apply Nat.lt_succ_l).
  pose proof (hard_preds_range c rows Hwf Hc0) as Hp.
  split; [done|].
  destruct (helpers_value gtb cast c rows ys Hwf Hc Hlen Hne) as [-> ->].
  assert (length (filter Is_true (zip_with Z.eqb (hard_preds gtb rows) ys))
          = 0%nat) as ->.
  { apply count_none, zip_eqb_none; [by rewrite length_hard_preds|].
    apply Forall2_same_length_lookup_2; [by rewrite length_hard_preds|].
    intros i p y Hpi Hyi.
    pose proof (proj1 (Forall_lookup _ _) Hp i p Hpi) as [Hp1 Hp2].
    pose proof (proj1 (Forall_lookup _ _) Hys i y Hyi) as [Hy|Hy];
      intros ->.
    - by apply Z.lt_nge in Hy.
    - by apply Z.le_ngt in Hy. }
  assert (Qc_of_nat 0 / Qc_of_nat (length rows) = 0) as ->.
  { apply ratio_zero; [|done]. destruct rows; [done|]. apply Nat.lt_0_succ. }
  done.
Qed.

(** X15: [Classifier.accuracy] on a score array with a single column does
    not look at the scores: the reshape keeps the one column, [argmax]
    over it is 0 in every row, and each label is compared with class 0. *)
Theorem classifier_single_column (rows : list (list score)) (ys : list Z) :
  wf (Mat 1 rows) → length ys = length rows →
  hard_preds gtb rows = replicate (length rows) 0%Z ∧
  Classifier.accuracy gtb (Mat 1 rows) (Vec ys) (Some false)
    = Ok (Classifier.Elems (Vec ((λ y, to_float32 (0 =? y)%Z) <$> ys))).
Proof.
  intros Hwf Hlen.
  assert (hard_preds gtb rows = replicate (length rows) 0%Z) as Hp.
  { clear Hlen. unfold hard_preds.
    induction Hwf as [|r rows Hr _ IH]; [done|].
    destruct r as [|x [|x' r]]; try done.
    change (Z.of_nat <$> (argmax_row gtb <$> [x] :: rows))
      with (0%Z :: (Z.of_nat <$> (argmax_row gtb <$> rows))).
    by rewrite IH. }
  split; [done|].
  rewrite classifier_matrix by done.
  change (flatten (Vec ys)) with ys.
  rewrite eq_arrays_vec by (by rewrite length_hard_preds).
  rewrite Hp, zip_with_replicate_l by (by rewrite Hlen).
  simpl. by rewrite <- list_fmap_compose.
Qed.

(** X16: [Classifier.accuracy] on a flat array of predictions does not
    compare position by position.  The array is reshaped to one row, so
    [argmax] gives the index of its first maximum, and every label is
    compared with that one index, however many labels there are; the
    empty array is rejected by the reshape. *)
Theorem classifier_flat_predictions (xs : list score) (ys : list Z)
    (averaged : option bool) :
  (xs ≠ [] →
     Classifier.accuracy gtb (Vec xs) (Vec ys) (Some false)
     = Ok (Classifier.Elems
             (Vec ((λ y, to_float32 (Z.of_nat (argmax_row gtb xs) =? y)%Z)
                     <$> ys)))) ∧
  Classifier.accuracy gtb (Vec []) (Vec ys) averaged = Raise RuntimeError.
Proof.
  split; [|done]. intros Hxs.
  rewrite classifier_flat by done. change (flatten (Vec ys)) with ys.
  rewrite eq_arrays_single. simpl. by rewrite <- list_fmap_compose.
Qed.

(** X17: [Classification.accuracy] on a score array with a single column
    and flat labels compares every score with every label: the column
    broadcasts against the labels to a table with one row per score and
    one column per label, and the result is the mean over the table.  It
    does not raise, whatever the two lengths. *)
Theorem classification_single_column (xs : list score) (ys : list Z) :
  Classification.accuracy gtb cast (Mat 1 ((λ x, [x]) <$> xs)) (Vec ys)
  = Ok (reduce_mean
          (Mat (length ys)
               ((λ x, (λ y, to_float32 (cast x =? y)%Z) <$> ys) <$> xs))).
Proof.
  rewrite classification_narrow by done.
  unfold compare_mean, eq_arrays, elementwise, amap, as_rows.
  rewrite !length_fmap. change (length [ys]) with 1%nat.
  rewrite (bdim_ok (length xs) 1) by (right; by right).
  rewrite (bdim_ok 1 (length ys)) by (right; by left).
  rewrite decide_True by done.
  assert ((if decide (length xs = 1%nat) then 1%nat else length xs)
          = length xs) as -> by (by case_decide).
  simpl. do 2 f_equal.
  replace (stretch (length xs) (fmap cast <$> ((λ x, [x]) <$> xs)))
    with (fmap (M := list) cast <$> ((λ x : score, [x]) <$> xs)).
  2: { rewrite <- (stretch_same (fmap cast <$> ((λ x, [x]) <$> xs))) at 1.
       by rewrite !length_fmap. }
  rewrite zip_with_replicate_r_eq by (by rewrite !length_fmap).
  rewrite <- !list_fmap_compose. f_equal.
  apply list_fmap_ext. intros i x _. simpl.
  rewrite stretch_same, zip_with_replicate_l by done.
  by rewrite <- list_fmap_compose.
Qed.

End Indices.

Lemma labels_out_of_range_witness :
  Classification.accuracy Z.gtb id Examples.scores (Vec [2; 2; (-1); 7]%Z)
  = Ok (Some 0).
Proof.
  apply (labels_out_of_range Z.gtb id 2 [[3; 1]; [0; 2]; [5; 5]; [1; 0]]%Z
           [2; 2; (-1); 7]%Z).
  - repeat constructor.
  - apply Nat.lt_1_2.
  - reflexivity.
  - done.
  - repeat (apply Forall_cons; split); [right|right|left|right|constructor];
      simpl; lia.
Defined.

Lemma classifier_single_column_witness :
  Classifier.accuracy Z.gtb (Mat 1 [[9]; [-4]; [0]]%Z) (Vec [0; 1; 0]%Z)
    (Some false)
  = Ok (Classifier.Elems (Vec [1; 0; 1])).
Proof.
  apply (classifier_single_column Z.gtb [[9]; [-4]; [0]]%Z [0; 1; 0]%Z).
  - repeat constructor.
  - reflexivity.
Defined.

Lemma classifier_flat_predictions_witness :
  Classifier.accuracy Z.gtb (Vec [0; 1; 1; 0]%Z) (Vec [0; 1; 1; 0; 1; 1]%Z)
    (Some false)
  = Ok (Classifier.Elems (Vec [0; 1; 1; 0; 1; 1])).
Proof.
  apply (classifier_flat_predictions Z.gtb [0; 1; 1; 0]%Z
           [0; 1; 1; 0; 1; 1]%Z None).
  done.
Defined.

End ScoreFacts.

(** ** More on the imputation, and the count of missing values *)

Module ImputeFacts.
Import Pandas Exercise PandasFacts.
Local Open Scope Qc_scope.

Lemma fillna_twice (col : column) (m : option Qc) :
  fillna (fillna col m) m = fillna col m.
Proof.
  destruct m as [v|]; [|done]. unfold fillna.
  rewrite <- list_fmap_compose. apply list_fmap_ext. by intros i [x|] _.
Qed.

Lemma length_fillna (col : column) (m : option Qc) :
  length (fillna col m) = length col.
Proof. destruct m; [apply length_fmap|done]. Qed.

Lemma fillna_lookup (col : column) (m : option Qc) (i : nat) :
  fillna col m !! i
  = (λ x, match x with Some v => Some v | None => m end) <$> col !! i.
Proof.
  destruct m as [v|]; simpl.
  - rewrite list_lookup_fmap. by destruct (col !! i) as [[x|]|].
  - by destruct (col !! i) as [[x|]|].
Qed.

(** X18: imputing twice is imputing once. *)
Theorem impute_idempotent (df : gmap string column) :
  impute (impute df) = impute df.
Proof.
  apply map_eq. intros name. rewrite !impute_lookup.
  destruct (df !! name) as [col|]; [|done]. simpl.
  by rewrite mean_fillna_mean, fillna_twice.
Qed.

(** X19: the imputation keeps the columns, their lengths and every entry
    that was there; an entry that was missing becomes the mean of its
    column. *)
Theorem impute_keeps_entries (df : gmap string column) (name : string)
    (col : column) :
  df !! name = Some col →
  dom (impute df) = dom df ∧
  ∃ col', impute df !! name = Some col' ∧
    length col' = length col ∧
    (∀ i v, col !! i = Some (Some v) → col' !! i = Some (Some v)) ∧
    (∀ i, col !! i = Some None → col' !! i = Some (mean col)).
Proof.
  intros Hcol. split.
  - apply set_eq. intros k. rewrite !elem_of_dom, impute_lookup.
    by rewrite fmap_is_Some.
  - exists (fillna col (mean col)). rewrite impute_lookup, Hcol.
    split; [done|]. split; [apply length_fillna|].
    split; intros i; [intros v|]; intros Hi;
      by rewrite fillna_lookup, Hi.
Qed.


Lemma Qc_of_nat_mul (n m : nat) :
  Qc_of_nat (n * m) = Qc_of_nat n * Qc_of_nat m.
Proof. unfold Qc_of_nat. by rewrite Nat2Z.inj_mul, Z2Qc_inj_mul. Qed.

Lemma ratio_eq (k s l : nat) :
  s ≠ 0%nat → l ≠ 0%nat →
  Qc_of_nat k / Qc_of_nat s = Qc_of_nat k / Qc_of_nat l
  ↔ k = 0%nat ∨ l = s.
Proof.
  intros Hs Hl.
  pose proof (Qc_of_nat_nonzero s Hs) as Hs'.
  pose proof (Qc_of_nat_nonzero l Hl) as Hl'.
  split.
  - intros H.
    assert (Qc_of_nat (k * l) = Qc_of_nat (k * s)) as E.
    { rewrite !Qc_of_nat_mul.
      transitivity (Qc_of_nat k / Qc_of_nat s * Qc_of_nat s * Qc_of_nat l);
        [field; done|].
      rewrite H. field. done. }
    apply ScoreFacts.Qc_of_nat_inj in E.
    destruct k as [|k]; [by left|right].
    by apply Nat.mul_cancel_l in E.
  - intros [->| ->]; [|done].
    rewrite ScoreFacts.Qc_of_nat_0. field. by split.
Qed.

(** X21: the number printed for a column under "Fraction of NaN's" is its
    count of missing entries divided by the number of columns of the
    frame.  It is 0 exactly when nothing is missing; it is the fraction of
    missing entries of the column only when nothing is missing or the
    frame has as many columns as the column has rows. *)
Theorem nan_report_value (df : gmap string column) (name : string)
    (col : column) :
  df !! name = Some col →
  nan_report df !! name
    = Some (Qc_of_nat (missing col) / Qc_of_nat (size df)) ∧
  (Qc_of_nat (missing col) / Qc_of_nat (size df) = 0
     ↔ missing col = 0%nat) ∧
  (col ≠ [] →
     Qc_of_nat (missing col) / Qc_of_nat (size df)
       = Qc_of_nat (missing col) / Qc_of_nat (length col)
     ↔ missing col = 0%nat ∨ length col = size df).
Proof.
  intros Hcol.
  assert (size df ≠ 0%nat) as Hsize.
  { apply map_size_non_empty_iff. intros ->. by rewrite lookup_empty in Hcol. }
  split; [|split].
  - unfold nan_report, isna_sum. by rewrite !lookup_fmap, Hcol.
  - apply ScoreFacts.ratio_zero. by apply Nat.neq_0_lt_0.
  - intros Hne. apply ratio_eq; [done|]. by destruct col.
Qed.

Lemma impute_keeps_entries_witness :
  dom (impute {[ "NumRooms" :=
                   [None; Some (Qc_of_Z 2); Some (Qc_of_Z 4); None] ]})
  = dom ({[ "NumRooms" :=
              [None; Some (Qc_of_Z 2); Some (Qc_of_Z 4); None] ]}
           : gmap string column).
Proof.
  apply (impute_keeps_entries _ "NumRooms"
           [None; Some (Qc_of_Z 2); Some (Qc_of_Z 4); None]).
  reflexivity.
Defined.


Lemma nan_report_value_witness :
  nan_report {[ "Sex" := [None; None; Some 1] ]} !! "Sex"
  = Some (Qc_of_nat 2 / Qc_of_nat 1).
Proof.
  destruct (nan_report_value {[ "Sex" := [None; None; Some 1] ]} "Sex"
              [None; None; Some 1]) as [H _]; [reflexivity|].
  exact H.
Defined.

End ImputeFacts.

(** ** Which helper has the shape guard *)

Module GuardFacts.
Import Array ArrayFacts AccuracyFacts.

Section Guard.
Context {score : Type} (gtb : score → score → bool) (cast : score → Z).

(** C3 as amended: [Classification.accuracy] takes a flat array of hard
    labels or a score matrix; a flat array is cast and compared with the
    labels as it is, and a matrix is reduced by [argmax] exactly when its
    second axis is longer than 1.  [Classifier.accuracy] has no such
    guard: a score matrix is reduced by [argmax] row by row whatever the
    number of its columns, and a flat array is reshaped to one row and
    reduced to the index of its first maximum, with which every label is
    compared. *)
Theorem accuracy_argmax_guard (xs : list score) (c : nat)
    (rows : list (list score)) (y : ndarray Z) (ys : list Z) :
  (Classification.accuracy gtb cast (Vec xs) y
     = compare_mean (Vec (cast <$> xs)) y ∧
   Classification.accuracy gtb cast (Mat c rows) y
     = compare_mean (if (1 <? c)%nat then Vec (hard_preds gtb rows)
                     else amap cast (Mat c rows)) y ∧
   (length xs = length ys →
      Classification.accuracy gtb cast (Vec xs) (Vec ys)
      = Ok (reduce_mean (Vec (correctness (cast <$> xs) ys)))) ∧
   ((1 < c)%nat → length rows = length ys →
      Classification.accuracy gtb cast (Mat c rows) (Vec ys)
      = Ok (reduce_mean (Vec (correctness (hard_preds gtb rows) ys))))) ∧
  (wf (Mat c rows) → c ≠ 0%nat → length rows = length ys →
     Classifier.accuracy gtb (Mat c rows) (Vec ys) (Some false)
     = Ok (Classifier.Elems (Vec (correctness (hard_preds gtb rows) ys))) ∧
     Classifier.accuracy gtb (Mat c rows) (Vec ys) None
     = Ok (Classifier.Scalar
             (reduce_mean (Vec (correctness (hard_preds gtb rows) ys))))) ∧
  (xs ≠ [] →
     Classifier.accuracy gtb (Vec xs) (Vec ys) (Some false)
     = Ok (Classifier.Elems
             (Vec ((λ l, to_float32 (Z.of_nat (argmax_row gtb xs) =? l))
                     <$> ys))) ∧
     Classifier.accuracy gtb (Vec xs) (Vec ys) None
     = Ok (Classifier.Scalar
             (reduce_mean
                (Vec ((λ l, to_float32 (Z.of_nat (argmax_row gtb xs) =? l))
                        <$> ys))))).
Proof.
  split; [apply classification_accuracy_shapes|]. split.
  - intros Hwf Hc Hlen.
    rewrite !classifier_matrix by done. change (flatten (Vec ys)) with ys.
    rewrite eq_arrays_vec; [done|].
    unfold hard_preds. by rewrite !length_fmap.
  - intros Hxs. rewrite !classifier_flat by done.
    change (flatten (Vec ys)) with ys.
    rewrite ScoreFacts.eq_arrays_single. simpl.
    by rewrite <- list_fmap_compose.
Qed.

End Guard.

Lemma accuracy_argmax_guard_witness :
  Classification.accuracy Z.gtb id (Vec [0; 1; 1; 0]) (Vec [0; 1; 1; 0])
    = Ok (reduce_mean (Vec (correctness [0; 1; 1; 0] [0; 1; 1; 0]))) ∧
  Classification.accuracy Z.gtb id Examples.scores Examples.labels
    = Ok (reduce_mean (Vec (correctness [0; 1; 0; 0] [0; 1; 1; 0]))) ∧
  Classifier.accuracy Z.gtb Examples.scores Examples.labels (Some false)
    = Ok (Classifier.Elems (Vec (correctness [0; 1; 0; 0] [0; 1; 1; 0]))) ∧
  Classifier.accuracy Z.gtb (Vec [0; 1; 1; 0]) (Vec [0; 1; 1; 0]) (Some false)
    = Ok (Classifier.Elems (Vec [0; 1; 1; 0]%Qc)).
Proof.
  destruct (accuracy_argmax_guard Z.gtb id [0; 1; 1; 0] 2
              [[3; 1]; [0; 2]; [5; 5]; [1; 0]] (Vec []) [0; 1; 1; 0])
    as [(_ & _ & H1 & H2) [H3 H4]].
  split; [by apply H1|]. split; [apply H2; [simpl; lia|done]|].
  split.
  - apply H3; [repeat constructor|done|done].
  - by apply H4.
Defined.

(** C3 as stated fails for [Classifier.accuracy]: a flat array of hard
    labels that agree with the labels in every position is not compared
    with them directly.  The direct comparison marks all four positions
    and gives the mean 1, as [Classification.accuracy] does; the
    notebook's helper reduces the array by [argmax] to the index 1 and
    marks the two labels equal to 1. *)
Lemma classifier_reduces_flat_labels :
  Classification.accuracy Z.gtb id (Vec [0; 1; 1; 0]) (Vec [0; 1; 1; 0])
    = Ok (Some 1%Qc) ∧
  correctness [0; 1; 1; 0] [0; 1; 1; 0] = [1; 1; 1; 1]%Qc ∧
  Classifier.accuracy Z.gtb (Vec [0; 1; 1; 0]) (Vec [0; 1; 1; 0]) (Some false)
    = Ok (Classifier.Elems (Vec [0; 1; 1; 0]%Qc)) ∧
  Classifier.accuracy Z.gtb (Vec [0; 1; 1; 0]) (Vec [0; 1; 1; 0]) (Some false)
    ≠ Ok (Classifier.Elems
            (Vec (correctness [0; 1; 1; 0] [0; 1; 1; 0]))) ∧
  Classifier.accuracy Z.gtb (Vec [0; 1; 1; 0]) (Vec [0; 1; 1; 0]) None
    ≠ Ok (Classifier.Scalar (Some 1%Qc)).
Proof.
  split; [vm_compute; do 2 f_equal; by apply Qc_is_canon|].
  split; [reflexivity|]. split; [reflexivity|].
  split; vm_compute; intros H; discriminate H.
Qed.

End GuardFacts.

(** ** Mean imputation in exact arithmetic and in binary64 *)

Module Impute64Facts.
Import PrimFloat.
Import Pandas PandasFacts.

Lemma fillna64_no_missing (col : list PrimFloat.float) (v : PrimFloat.float) :
  Forall (λ x, Pandas64.is_nan x = false) col → Pandas64.fillna col v = col.
Proof.
  induction 1 as [|x col Hx _ IH]; [done|].
  unfold Pandas64.fillna in *. csimpl. by rewrite Hx, IH.
Qed.

Lemma present64_all_missing (col : list PrimFloat.float) :
  Forall (λ x, Pandas64.is_nan x = true) col → Pandas64.present col = [].
Proof.
  induction 1 as [|x col Hx _ IH]; [done|].
  unfold Pandas64.present in *. rewrite filter_cons_False; [done|].
  by rewrite Hx.
Qed.

Lemma fillna64_all_missing (col : list PrimFloat.float) :
  Forall (λ x, Pandas64.is_nan x = true) col →
  Forall (λ x, Pandas64.is_nan x = true) (Pandas64.fillna col PrimFloat.nan).
Proof.
  intros H. unfold Pandas64.fillna. apply Forall_fmap.
  eapply Forall_impl; [exact H|]. intros x Hx. simpl. by rewrite Hx.
Qed.

(** C9 as amended: filling the missing entries of a column with the mean
    of the others leaves the mean of the column unchanged when the means
    are taken in exact arithmetic.  In the binary64 arithmetic of the
    notebook it is unchanged for a column without missing entries (which
    the imputation returns as it is), for a column without any other
    entries (not a number before and after), and for the notebook's
    column NaN, 2, 4, NaN, whose mean is 3 before and after. *)
Theorem impute_mean_exact_and_binary64 (df : gmap string column)
    (name : string) (col : column) (col64 : list PrimFloat.float) :
  (df !! name = Some col →
     impute df !! name = Some (fillna col (mean col)) ∧
     mean (fillna col (mean col)) = mean col ∧
     (present col ≠ [] →
        ∃ vs : list Qc,
          fillna col (mean col) = Some <$> vs ∧
          length vs = length col ∧
          mean col = Some (sum vs / Qc_of_nat (length vs))%Qc)) ∧
  (Forall (λ x, Pandas64.is_nan x = false) col64 →
     Pandas64.impute col64 = col64 ∧
     Pandas64.mean (Pandas64.impute col64) = Pandas64.mean col64) ∧
  (Forall (λ x, Pandas64.is_nan x = true) col64 →
     Pandas64.mean col64 = PrimFloat.nan ∧
     Pandas64.mean (Pandas64.impute col64) = Pandas64.mean col64) ∧
  Pandas64.mean [PrimFloat.nan; 2; 4; PrimFloat.nan]%float = 3%float ∧
  Pandas64.impute [PrimFloat.nan; 2; 4; PrimFloat.nan]%float
    = [3; 2; 4; 3]%float ∧
  Pandas64.mean (Pandas64.impute [PrimFloat.nan; 2; 4; PrimFloat.nan]%float)
    = 3%float.
Proof.
  split; [apply impute_keeps_mean|]. split; [|split].
  - intros Hall. unfold Pandas64.impute.
    by rewrite (fillna64_no_missing col64 _ Hall).
  - intros Hall.
    assert (Pandas64.mean col64 = PrimFloat.nan) as Hm.
    { unfold Pandas64.mean. by rewrite (present64_all_missing col64 Hall). }
    split; [done|]. unfold Pandas64.impute. rewrite Hm.
    unfold Pandas64.mean at 1.
    by rewrite (present64_all_missing _ (fillna64_all_missing col64 Hall)).
  - repeat split; vm_compute; reflexivity.
Qed.

Lemma impute_mean_exact_and_binary64_witness :
  mean (fillna [None; Some (Qc_of_Z 2); Some (Qc_of_Z 4); None]
          (mean [None; Some (Qc_of_Z 2); Some (Qc_of_Z 4); None]))
    = mean [None; Some (Qc_of_Z 2); Some (Qc_of_Z 4); None] ∧
  Pandas64.impute [2; 4]%float = [2; 4]%float ∧
  Pandas64.mean [PrimFloat.nan; PrimFloat.nan] = PrimFloat.nan.
Proof.
  destruct (impute_mean_exact_and_binary64
              {[ "NumRooms" :=
                   [None; Some (Qc_of_Z 2); Some (Qc_of_Z 4); None] ]}
              "NumRooms"
              [None; Some (Qc_of_Z 2); Some (Qc_of_Z 4); None]
              [2; 4]%float) as (H1 & H2 & _).
  destruct (impute_mean_exact_and_binary64 ∅ "NumRooms" []
              [PrimFloat.nan; PrimFloat.nan]) as (_ & _ & H3 & _).
  split; [by apply H1|]. split.
  - apply H2. repeat constructor.
  - apply H3. repeat constructor.
Defined.

(** C9 as stated fails in the arithmetic of the notebook: the column
    NaN, 0.1, 0.2 (the binary64 numbers nearest to 0.1 and 0.2) has the
    mean 0.15000000000000002; filled with it, the column has the mean
    0.15 (printed in full, 0.14999999999999999), one unit in the last
    place below. *)
Lemma impute_changes_mean_binary64 :
  Pandas64.mean [PrimFloat.nan; 0x1.999999999999ap-4; 0x1.999999999999ap-3]%float
    = 0x1.3333333333334p-3%float ∧
  Pandas64.mean
    (Pandas64.impute
       [PrimFloat.nan; 0x1.999999999999ap-4; 0x1.999999999999ap-3]%float)
    = 0x1.3333333333333p-3%float ∧
  Pandas64.mean
    (Pandas64.impute
       [PrimFloat.nan; 0x1.999999999999ap-4; 0x1.999999999999ap-3]%float)
    ≠ Pandas64.mean
        [PrimFloat.nan; 0x1.999999999999ap-4; 0x1.999999999999ap-3]%float.
Proof.
  split; [vm_compute; reflexivity|]. split; [vm_compute; reflexivity|].
  intros H.
  apply (f_equal (λ x, PrimFloat.eqb x 0x1.3333333333334p-3%float)) in H.
  vm_compute in H. discriminate H.
Qed.

End Impute64Facts.
